(** * Bootstrap configuration of pants: [pants.init.options_initializer]

    A shallow embedding of [src/python/pants/init/options_initializer.py]:
    the class-level build-configuration cache ([BuildConfigInitializer]) and
    the option computations and assembly of [OptionsInitializer].

    Python values are modelled as follows: [int] as [Z], [Optional[int]] as
    [option Z], [str] as [string], tuples and lists of strings as
    [list string].  An exception is a value of [exn]; code that may raise
    returns a [result].  Code that reads or writes process-wide state (the
    class attribute [_cached_build_config], [sys.path]) or calls an external
    collaborator is written in a state-and-exception monad over [World]. *)

From Stdlib Require Import ZArith List String Ascii Bool Lia.
Import ListNotations.

Local Open Scope string_scope.
Local Open Scope list_scope.
Local Open Scope Z_scope.

(** ** Exceptions and results *)

(** The exception classes the module raises or intercepts.
    [UnknownFlagsError] carries the offending flags and the scope they were
    given in; [UnboundLocalError] is what Python raises when a local name is
    read before any assignment to it ran; [CollaboratorError] stands for any
    error of an external collaborator that this module never inspects
    (plugin resolution, backend loading, option validation). *)
Inductive exn : Type :=
| ValueError (msg : string)
| BuildConfigurationError (msg : string)
| UnknownFlagsError (flags : list string) (arg_scope : string)
| UnboundLocalError (name : string)
| CollaboratorError (msg : string).

Inductive result (A : Type) : Type :=
| Return (a : A)
| Raise (e : exn).
Arguments Return {A} a.
Arguments Raise {A} e.

(** ** Bootstrap option values *)

(** The global-scope bootstrap options the module reads
    ([OptionValueContainer] attributes). *)
Record OptionValueContainer : Type := {
  pythonpath : list string;
  plugins : list string;
  backend_packages : list string;
  pants_version : string;
  pants_ignore : list string;
  pants_workdir : string;
  pants_distdir : string;
  pants_subprocessdir : string;
  pants_config_files : list string;
  pantsd_invalidation_globs : list string;
  rule_threads_core : Z;
  rule_threads_max : option Z
}.

(** ** [OptionsInitializer.compute_executor_arguments] *)

(** Truth value of an [Optional[int]]: [None] and [0] are falsy. *)
Definition truthy (o : option Z) : bool :=
  match o with
  | Some n => negb (n =? 0)
  | None => false
  end.

Definition compute_executor_arguments
    (bootstrap_options : OptionValueContainer) : result (Z * Z) :=
  if rule_threads_core bootstrap_options <? 2 then
    Raise (ValueError "--rule-threads-core values less than 2 are not supported.")
  else
    let rule_threads_max' :=
      if truthy (rule_threads_max bootstrap_options) then
        match rule_threads_max bootstrap_options with
        | Some m => m
        | None => 4 * rule_threads_core bootstrap_options
        end
      else 4 * rule_threads_core bootstrap_options in
    Return (rule_threads_core bootstrap_options, rule_threads_max').

(** A bootstrap option container with every list empty, used to build
    concrete inputs by record update. *)
Definition empty_options : OptionValueContainer := {|
  pythonpath := [];
  plugins := [];
  backend_packages := [];
  pants_version := "";
  pants_ignore := [];
  pants_workdir := "";
  pants_distdir := "";
  pants_subprocessdir := "";
  pants_config_files := [];
  pantsd_invalidation_globs := [];
  rule_threads_core := 0;
  rule_threads_max := None
|}.

Definition with_rule_threads (core : Z) (max : option Z)
    (o : OptionValueContainer) : OptionValueContainer := {|
  pythonpath := pythonpath o;
  plugins := plugins o;
  backend_packages := backend_packages o;
  pants_version := pants_version o;
  pants_ignore := pants_ignore o;
  pants_workdir := pants_workdir o;
  pants_distdir := pants_distdir o;
  pants_subprocessdir := pants_subprocessdir o;
  pants_config_files := pants_config_files o;
  pantsd_invalidation_globs := pantsd_invalidation_globs o;
  rule_threads_core := core;
  rule_threads_max := max
|}.

(** ** Python string operations used by the module *)

Module Str.
Local Open Scope string_scope.

(** [s.startswith(p)]. *)
Definition startswith (s p : string) : bool := String.prefix p s.

(** [s.endswith(c)] for a one-character [c]. *)
Fixpoint endswith_char (s : string) (c : ascii) : bool :=
  match s with
  | EmptyString => false
  | String a EmptyString => Ascii.eqb a c
  | String _ s' => endswith_char s' c
  end.

(** [s.rstrip(c)] for a one-character [c]: every trailing [c] removed. *)
Fixpoint rstrip (s : string) (c : ascii) : string :=
  match s with
  | EmptyString => EmptyString
  | String a s' =>
      let r := rstrip s' c in
      if Ascii.eqb a c && (r =? "") then EmptyString else String a r
  end.

(** [s.split(c)] for a one-character separator: never the empty list. *)
Fixpoint split (s : string) (c : ascii) : list string :=
  match s with
  | EmptyString => [EmptyString]
  | String a s' =>
      if Ascii.eqb a c then EmptyString :: split s' c
      else match split s' c with
           | h :: t => String a h :: t
           | [] => [String a EmptyString]
           end
  end.

(** [s * n]: [n] copies of [s]. *)
Fixpoint times (s : string) (n : nat) : string :=
  match n with
  | O => EmptyString
  | S n' => s ++ times s n'
  end.

(** [s[len(p):]] when [s] starts with [p]. *)
Fixpoint strip_prefix (p s : string) : option string :=
  match p, s with
  | EmptyString, _ => Some s
  | String a p', String b s' =>
      if Ascii.eqb a b then strip_prefix p' s' else None
  | String _ _, EmptyString => None
  end.

(** [s[:-1]] when [s] ends with [c], else [s]. *)
Fixpoint drop_last_if (s : string) (c : ascii) : string :=
  match s with
  | EmptyString => EmptyString
  | String a EmptyString => if Ascii.eqb a c then EmptyString else s
  | String a s' => String a (drop_last_if s' c)
  end.
End Str.

(** ** [os.path] on POSIX ([posixpath])

    [relpath] is the standard library's lexical relativization; the current
    working directory, which [abspath] reads through [os.getcwd()], is an
    explicit argument [cwd]. *)
Module os_path.
Local Open Scope string_scope.

Definition sep : ascii := "/"%char.
Definition curdir : string := ".".
Definition pardir : string := "..".

Definition isabs (s : string) : bool := Str.startswith s "/".

(** [join(a, b)] for one further component. *)
Definition join2 (path b : string) : string :=
  if Str.startswith b "/" then b
  else if (path =? "") || Str.endswith_char path sep then path ++ b
  else path ++ "/" ++ b.

(** [join(a, *p)]. *)
Definition join (a : string) (p : list string) : string :=
  fold_left join2 p a.

Definition is_nil {A} (l : list A) : bool :=
  match l with [] => true | _ => false end.

(** One iteration of the component loop of [normpath]. *)
Definition normpath_step (initial_slashes : nat) (new_comps : list string)
    (comp : string) : list string :=
  if (comp =? "") || (comp =? ".") then new_comps
  else if negb (comp =? "..")
          || (Nat.eqb initial_slashes 0 && is_nil new_comps)
          || (negb (is_nil new_comps) && (last new_comps "" =? ".."))
       then new_comps ++ [comp]
  else if negb (is_nil new_comps) then removelast new_comps
  else new_comps.

Definition normpath (path : string) : string :=
  if path =? "" then "."
  else
    let initial_slashes :=
      if Str.startswith path "/" then
        if Str.startswith path "//" && negb (Str.startswith path "///")
        then 2%nat else 1%nat
      else 0%nat in
    let comps :=
      fold_left (normpath_step initial_slashes) (Str.split path sep) [] in
    let path' := Str.times "/" initial_slashes ++ String.concat "/" comps in
    if path' =? "" then "." else path'.

Definition abspath (cwd path : string) : string :=
  normpath (if isabs path then path else join cwd [path]).

(** [genericpath.commonprefix] on two component lists: their longest
    common leading part. *)
Fixpoint commonprefix (l1 l2 : list string) : list string :=
  match l1, l2 with
  | a :: l1', b :: l2' => if a =? b then a :: commonprefix l1' l2' else []
  | _, _ => []
  end.

Definition nonempty (x : string) : bool := negb (x =? "").

Definition relpath (cwd path start : string) : result string :=
  if path =? "" then Raise (ValueError "no path specified")
  else
    let start_list := filter nonempty (Str.split (abspath cwd start) sep) in
    let path_list := filter nonempty (Str.split (abspath cwd path) sep) in
    let i := List.length (commonprefix start_list path_list) in
    let rel_list :=
      (repeat pardir (List.length start_list - i) ++ skipn i path_list)%list in
    match rel_list with
    | [] => Return curdir
    | a :: p => Return (join a p)
    end.
End os_path.

(** The components [relpath] compares: those of the absolute, normalized
    path, as [abspath(p).split(sep)] without the empty strings. *)
Definition path_components (cwd path : string) : list string :=
  filter os_path.nonempty
    (Str.split (os_path.abspath cwd path) os_path.sep).

(** ** Helpers of the repository that the module imports *)

(** Modelled from the spec: [fast_relpath_optional] of [pants.util.dirutil]
    is imported by the module and is not among the sources.  The spec has it
    compute the path of a directory relative to the build root by string
    manipulation only, with no result when the directory lies outside the
    build root (cannot be expressed as a descendant).  The model is
    prefix-based: [start], less one trailing separator, must be a leading
    part of [path] that ends at a component boundary; the result is what
    follows that boundary, which is empty when [path] is [start] itself. *)
Definition fast_relpath_optional (path start : string) : option string :=
  if (start =? "")%string then Some path
  else
    match Str.strip_prefix (Str.drop_last_if start os_path.sep) path with
    | Some EmptyString => Some EmptyString
    | Some (String c rest) =>
        if Ascii.eqb c os_path.sep then Some rest else None
    | None => None
    end.

(** Modelled from the spec: [OrderedSet] of [pants.util.ordered_set] is
    imported by the module and is not among the sources.  The spec has it
    insertion-order-deduplicating: each distinct string appears once, and
    first-seen order is retained.  A set is the list of its members in
    insertion order; [tuple(s)] is that list. *)
Module OrderedSet.
Definition t : Type := list string.

Definition empty : t := [].

Definition contains (s : t) (x : string) : bool := existsb (String.eqb x) s.

Definition add (s : t) (x : string) : t :=
  if contains s x then s else s ++ [x].

Definition update (s : t) (xs : list string) : t := fold_left add xs s.
End OrderedSet.

(** ** [OptionsInitializer.compute_pants_ignore] *)

(** The local function [add], which appends to the list [pants_ignore] of the
    enclosing call: the list before the call goes in, the list after it comes
    out.  [if maybe_rel_path:] is false for [None] and for the empty
    string. *)
Definition add (buildroot : string) (pants_ignore : list string)
    (absolute_path : string) (include : bool) : list string :=
  match fast_relpath_optional absolute_path buildroot with
  | None => pants_ignore
  | Some maybe_rel_path =>
      if (maybe_rel_path =? "")%string then pants_ignore
      else
        let rel_path := Str.rstrip maybe_rel_path os_path.sep in
        let prefix := if include then "!" else "" in
        pants_ignore ++ [(prefix ++ "/" ++ rel_path)%string]
  end.

Definition compute_pants_ignore (buildroot : string)
    (global_options : OptionValueContainer) : list string :=
  let pants_ignore0 := pants_ignore global_options in
  let pants_ignore1 :=
    add buildroot pants_ignore0 (pants_workdir global_options) false in
  let pants_ignore2 :=
    add buildroot pants_ignore1 (pants_distdir global_options) false in
  let pants_ignore3 :=
    add buildroot pants_ignore2 (pants_subprocessdir global_options) false in
  pants_ignore3.

Definition with_ignore_inputs (user : list string) (workdir distdir subprocessdir : string)
    (o : OptionValueContainer) : OptionValueContainer := {|
  pythonpath := pythonpath o;
  plugins := plugins o;
  backend_packages := backend_packages o;
  pants_version := pants_version o;
  pants_ignore := user;
  pants_workdir := workdir;
  pants_distdir := distdir;
  pants_subprocessdir := subprocessdir;
  pants_config_files := pants_config_files o;
  pantsd_invalidation_globs := pantsd_invalidation_globs o;
  rule_threads_core := rule_threads_core o;
  rule_threads_max := rule_threads_max o
|}.

(** ** [OptionsInitializer.compute_pantsd_invalidation_globs] *)

(** Whether the loop drops an entry with this relativized path. *)
Definition outside_buildroot (glob_relpath : string) : bool :=
  (glob_relpath =? ".")%string || Str.startswith glob_relpath "..".

(** The [for glob in potentially_absolute_globs] loop: the set before the
    remaining iterations goes in, the set after them comes out.  An error of
    [os.path.relpath] ends the loop and the call.  The [logger.debug] note
    of the dropping branch has no effect on the result and is left out. *)
Fixpoint relativize_globs (cwd buildroot : string) (globs : list string)
    (invalidation_globs : OrderedSet.t) : result OrderedSet.t :=
  match globs with
  | [] => Return invalidation_globs
  | glob :: rest =>
      match os_path.relpath cwd glob buildroot with
      | Raise e => Raise e
      | Return glob_relpath =>
          if outside_buildroot glob_relpath then
            relativize_globs cwd buildroot rest invalidation_globs
          else
            relativize_globs cwd buildroot rest
              (OrderedSet.update invalidation_globs
                 [glob_relpath; (glob_relpath ++ "/**")%string])
      end
  end.

(** What an entry that the loop keeps contributes to the set. *)
Definition contributed (cwd buildroot glob x : string) : Prop :=
  exists r, os_path.relpath cwd glob buildroot = Return r
            /\ outside_buildroot r = false
            /\ (x = r \/ x = (r ++ "/**")%string).

(** The globs that are always added, in the order of the source. *)
Definition fixed_globs : list string :=
  ["!*.pyc"; "!__pycache__/"; "requirements.txt"; "3rdparty/**/requirements.txt"].

(** [sys_path] is the value of [sys.path] when the function runs and [cwd]
    the working directory of the process. *)
Definition compute_pantsd_invalidation_globs (cwd : string)
    (sys_path : list string) (buildroot : string)
    (bootstrap_options : OptionValueContainer) : result (list string) :=
  let potentially_absolute_globs :=
    sys_path ++ pythonpath bootstrap_options
             ++ pants_config_files bootstrap_options in
  match relativize_globs cwd buildroot potentially_absolute_globs
          OrderedSet.empty with
  | Raise e => Raise e
  | Return invalidation_globs =>
      Return (OrderedSet.update invalidation_globs
                (fixed_globs ++ pantsd_invalidation_globs bootstrap_options))
  end.

Definition with_glob_inputs (extra_paths config_files user_globs : list string)
    (o : OptionValueContainer) : OptionValueContainer := {|
  pythonpath := extra_paths;
  plugins := plugins o;
  backend_packages := backend_packages o;
  pants_version := pants_version o;
  pants_ignore := pants_ignore o;
  pants_workdir := pants_workdir o;
  pants_distdir := pants_distdir o;
  pants_subprocessdir := pants_subprocessdir o;
  pants_config_files := config_files;
  pantsd_invalidation_globs := user_globs;
  rule_threads_core := rule_threads_core o;
  rule_threads_max := rule_threads_max o
|}.

(** ** The bootstrapper and the external collaborators *)

(** [OptionsBootstrapper] is a frozen dataclass; the module reads it through
    its methods and rebuilds it once with [dataclasses.replace]. *)
Record OptionsBootstrapper : Type := {
  env_tuples : list (string * string);
  bootstrap_args : list string;
  args : list string;
  config : list string
}.

(** [dataclasses.replace(options_bootstrapper, args=new_args)]. *)
Definition replace_args (options_bootstrapper : OptionsBootstrapper)
    (new_args : list string) : OptionsBootstrapper := {|
  env_tuples := env_tuples options_bootstrapper;
  bootstrap_args := bootstrap_args options_bootstrapper;
  args := new_args;
  config := config options_bootstrapper
|}.

(** What the module calls and does not define: the types are opaque here,
    each call either returns or raises.
    - [running_pants_version] is [pants_version()];
    - [get_bootstrap_options b] is
      [b.get_bootstrap_options().for_global_scope()];
    - [resolve b] is [PluginResolver(b).resolve()];
    - [all_optionables] and [known_scope_infos] are the attribute and the
      method the scope comprehension of [create] reads;
    - [get_full_options b scopes] is [b.get_full_options(scopes)];
    - [validate_instance] is [GlobalOptions.validate_instance]. *)
Class Collaborators : Type := {
  WorkingSet : Type;
  BuildConfiguration : Type;
  Optionable : Type;
  ScopeInfo : Type;
  Options : Type;
  running_pants_version : string;
  get_bootstrap_options : OptionsBootstrapper -> result OptionValueContainer;
  resolve : OptionsBootstrapper -> result WorkingSet;
  load_backends_and_plugins :
    list string -> WorkingSet -> list string -> result BuildConfiguration;
  all_optionables : BuildConfiguration -> list Optionable;
  known_scope_infos : Optionable -> list ScopeInfo;
  get_full_options : OptionsBootstrapper -> list ScopeInfo -> result Options;
  for_global_scope : Options -> OptionValueContainer;
  validate_instance : OptionValueContainer -> result unit
}.

Section Initializers.
Context `{C : Collaborators}.

(** The calls the process makes on its collaborators, in the order made:
    what a test double of each would record. *)
Inductive Call : Type :=
| resolve_call (options_bootstrapper : OptionsBootstrapper)
| fixup_namespace_packages_call (path : string)
| load_backends_and_plugins_call (plugins' backend_packages' : list string)
| known_scope_infos_call (build_configuration : BuildConfiguration)
| get_full_options_call (options_bootstrapper : OptionsBootstrapper)
| validate_instance_call (options : Options)
| handle_unknown_flags_call (options : Options) (err : exn).

(** The process-wide state: the class attribute of
    [BuildConfigInitializer], [sys.path], and the calls made so far. *)
Record World : Type := {
  _cached_build_config : option BuildConfiguration;
  sys_path : list string;
  calls : list Call
}.

(** State and exceptions: a computation runs from a world to a result and
    the world it leaves, also when it raises. *)
Definition M (A : Type) : Type := World -> result A * World.

Definition ret {A} (a : A) : M A := fun w => (Return a, w).

Definition raise {A} (e : exn) : M A := fun w => (Raise e, w).

Definition bind {A B} (m : M A) (k : A -> M B) : M B :=
  fun w =>
    match m w with
    | (Return a, w') => k a w'
    | (Raise e, w') => (Raise e, w')
    end.

Definition lift {A} (r : result A) : M A := fun w => (r, w).

Definition record_call (c : Call) : M unit :=
  fun w =>
    (Return tt,
     {| _cached_build_config := _cached_build_config w;
        sys_path := sys_path w;
        calls := calls w ++ [c] |}).

Definition read_cache : M (option BuildConfiguration) :=
  fun w => (Return (_cached_build_config w), w).

Definition write_cache (v : option BuildConfiguration) : M unit :=
  fun w =>
    (Return tt,
     {| _cached_build_config := v;
        sys_path := sys_path w;
        calls := calls w |}).

Definition read_sys_path : M (list string) :=
  fun w => (Return (sys_path w), w).

Definition sys_path_append (path : string) : M unit :=
  fun w =>
    (Return tt,
     {| _cached_build_config := _cached_build_config w;
        sys_path := sys_path w ++ [path];
        calls := calls w |}).
End Initializers.

Declare Scope init_scope.
Delimit Scope init_scope with init.
Notation "x <- m ;; k" := (bind m (fun x => k))
  (at level 61, m at next level, right associativity) : init_scope.
Notation "m ;; k" := (bind m (fun _ => k))
  (at level 61, right associativity) : init_scope.

Section InitializerCode.
Context `{C : Collaborators}.
Local Open Scope init_scope.

(** *** [BuildConfigInitializer] *)

Record BuildConfigInitializer : Type := {
  _bootstrap_options : OptionValueContainer;
  _working_set : WorkingSet
}.

(** [BuildConfigInitializer.__init__]. *)
Definition init (options_bootstrapper : OptionsBootstrapper)
    : M BuildConfigInitializer :=
  bootstrap_options <- lift (get_bootstrap_options options_bootstrapper) ;;
  record_call (resolve_call options_bootstrapper) ;;
  working_set <- lift (resolve options_bootstrapper) ;;
  ret {| _bootstrap_options := bootstrap_options;
         _working_set := working_set |}.

(** The [for path in self._bootstrap_options.pythonpath] loop of
    [setup]. *)
Fixpoint extend_sys_path (paths : list string) : M unit :=
  match paths with
  | [] => ret tt
  | path :: rest =>
      current <- read_sys_path ;;
      (if existsb (String.eqb path) current then ret tt
       else (sys_path_append path ;;
             record_call (fixup_namespace_packages_call path))) ;;
      extend_sys_path rest
  end.

(** [BuildConfigInitializer.setup]. *)
Definition setup (self : BuildConfigInitializer) : M BuildConfiguration :=
  extend_sys_path (pythonpath (_bootstrap_options self)) ;;
  record_call (load_backends_and_plugins_call
                 (plugins (_bootstrap_options self))
                 (backend_packages (_bootstrap_options self))) ;;
  lift (load_backends_and_plugins
          (plugins (_bootstrap_options self))
          (_working_set self)
          (backend_packages (_bootstrap_options self))).

(** [BuildConfigInitializer.get]: the attribute is assigned only when
    [cls(options_bootstrapper).setup()] returned, and the value returned
    is the attribute's. *)
Definition get (options_bootstrapper : OptionsBootstrapper)
    : M BuildConfiguration :=
  cached <- read_cache ;;
  match cached with
  | Some build_config => ret build_config
  | None =>
      self <- init options_bootstrapper ;;
      build_config <- setup self ;;
      write_cache (Some build_config) ;;
      ret build_config
  end.

(** [BuildConfigInitializer.reset]. *)
Definition reset : M unit := write_cache None.

(** *** [OptionsInitializer] *)

Definition version_mismatch_message (requested running : string) : string :=
  ("Version mismatch: Requested version was " ++ requested
     ++ ", our version is " ++ running ++ ".")%string.

(** [OptionsInitializer.create]. *)
Definition create (options_bootstrapper : OptionsBootstrapper)
    (build_configuration : BuildConfiguration) : M Options :=
  global_bootstrap_options <-
    lift (get_bootstrap_options options_bootstrapper) ;;
  if negb (pants_version global_bootstrap_options =? running_pants_version)%string
  then
    raise (BuildConfigurationError
             (version_mismatch_message
                (pants_version global_bootstrap_options)
                running_pants_version))
  else
    record_call (known_scope_infos_call build_configuration) ;;
    let known_scope_infos' :=
      flat_map known_scope_infos (all_optionables build_configuration) in
    record_call (get_full_options_call options_bootstrapper) ;;
    options <- lift (get_full_options options_bootstrapper known_scope_infos') ;;
    record_call (validate_instance_call options) ;;
    lift (validate_instance (for_global_scope options)) ;;
    ret options.

(** [OptionsInitializer.handle_unknown_flags], a context manager: [body]
    is the block of the [with] statement.  The manager returns [Some] of
    the block's value when the block completed, and [None] when the block
    raised [UnknownFlagsError] and the manager suppressed it, in which
    case no statement of the block after the raising one has run. *)
Definition handle_unknown_flags {A} (options_bootstrapper : OptionsBootstrapper)
    (raise_ : bool) (body : M A) : M (option A) :=
  fun w =>
    match body w with
    | (Return a, w') => (Return (Some a), w')
    | (Raise (UnknownFlagsError flags arg_scope), w') =>
        (build_config <- get options_bootstrapper ;;
         let no_arg_bootstrapper :=
           replace_args options_bootstrapper ["dummy_first_arg"] in
         options <- create no_arg_bootstrapper build_config ;;
         record_call (handle_unknown_flags_call options
                        (UnknownFlagsError flags arg_scope)) ;;
         if raise_ then raise (UnknownFlagsError flags arg_scope)
         else ret None) w'
    | (Raise e, w') => (Raise e, w')
    end.

(** [OptionsInitializer.create_with_build_config].  The local [options]
    is bound by the assignment inside the [with] block; reading it in the
    [return] statement when that assignment never ran raises
    [UnboundLocalError]. *)
Definition create_with_build_config (options_bootstrapper : OptionsBootstrapper)
    (raise_ : bool) : M (BuildConfiguration * Options) :=
  build_config <- get options_bootstrapper ;;
  options_local <-
    handle_unknown_flags options_bootstrapper raise_
      (create options_bootstrapper build_config) ;;
  match options_local with
  | Some options => ret (build_config, options)
  | None => raise (UnboundLocalError "options")
  end.
End InitializerCode.

(** ** Test doubles of the collaborators

    A small concrete world for running the initializers: the bootstrapper's
    [config] lists the plugins, its first bootstrap argument is the declared
    version, and the only flags the parser knows are listed in
    [known_flags]. *)
Module Doubles.
Definition known_flags : list string :=
  ["./pants"; "dummy_first_arg"; "list"; "--level=debug"].

Definition is_known (flag : string) : bool :=
  existsb (String.eqb flag) known_flags.

Definition bootstrap_options_of (b : OptionsBootstrapper) : OptionValueContainer := {|
  pythonpath := ["/r/extra"];
  plugins := config b;
  backend_packages := ["pants.backend.python"];
  pants_version := hd "" (bootstrap_args b);
  pants_ignore := [];
  pants_workdir := "/r/.pants.d";
  pants_distdir := "/r/dist";
  pants_subprocessdir := "/r/.pids";
  pants_config_files := ["/r/pants.toml"];
  pantsd_invalidation_globs := [];
  rule_threads_core := 2;
  rule_threads_max := None
|}.

Definition resolve_double (b : OptionsBootstrapper) : result (list string) :=
  if existsb (String.eqb "unresolvable") (config b)
  then Raise (CollaboratorError "plugin resolution failed")
  else Return (config b).

Definition load_double (plugins' working_set backend_packages' : list string)
    : result (list string) :=
  if existsb (String.eqb "conflicting") plugins'
  then Raise (CollaboratorError "duplicate registration")
  else Return (working_set ++ backend_packages').

Definition parse_double (b : OptionsBootstrapper) (scopes : list string)
    : result (list string) :=
  match filter (fun flag => negb (is_known flag)) (args b) with
  | [] => Return (args b)
  | unknown => Raise (UnknownFlagsError unknown "")
  end.

Definition collaborators : Collaborators := {|
  WorkingSet := list string;
  BuildConfiguration := list string;
  Optionable := string;
  ScopeInfo := string;
  Options := list string;
  running_pants_version := "2.0.0";
  get_bootstrap_options := fun b => Return (bootstrap_options_of b);
  resolve := resolve_double;
  load_backends_and_plugins := load_double;
  all_optionables := fun build_configuration => build_configuration;
  known_scope_infos := fun optionable => [optionable];
  get_full_options := parse_double;
  for_global_scope := fun _ => empty_options;
  validate_instance := fun _ => Return tt
|}.

(** A fresh process: nothing cached, nothing called. *)
Definition fresh : @World collaborators := {|
  _cached_build_config := None;
  sys_path := ["/usr/lib/python3"];
  calls := []
|}.

Definition bootstrapper (version : string) (plugins' args' : list string)
    : OptionsBootstrapper := {|
  env_tuples := [];
  bootstrap_args := [version];
  args := args';
  config := plugins'
|}.
End Doubles.

(** Bootstrappers and a warmed-up world for running the doubles. *)
Module DoublesRun.
Import Doubles.

Definition good : OptionsBootstrapper :=
  bootstrapper "2.0.0" ["p1"] ["./pants"; "list"].

Definition other : OptionsBootstrapper :=
  bootstrapper "2.0.0" ["p2"; "p3"] ["./pants"; "--level=debug"].

Definition stale : OptionsBootstrapper :=
  bootstrapper "1.9.0" ["p1"] ["./pants"; "list"].

Definition mistyped : OptionsBootstrapper :=
  bootstrapper "2.0.0" ["p1"] ["./pants"; "--bogus"; "list"].

Definition unresolvable : OptionsBootstrapper :=
  bootstrapper "2.0.0" ["unresolvable"] ["./pants"; "list"].

Definition conflicting : OptionsBootstrapper :=
  bootstrapper "2.0.0" ["conflicting"] ["./pants"; "list"].

(** The world after a first [get] on [good]. *)
Definition warmed : @World collaborators := snd (get good fresh).
End DoublesRun.

(** Doubles whose validator rejects every global option container. *)
Module DoublesInvalid.
Definition collaborators : Collaborators := {|
  WorkingSet := list string;
  BuildConfiguration := list string;
  Optionable := string;
  ScopeInfo := string;
  Options := list string;
  running_pants_version := "2.0.0";
  get_bootstrap_options := fun b => Return (Doubles.bootstrap_options_of b);
  resolve := Doubles.resolve_double;
  load_backends_and_plugins := Doubles.load_double;
  all_optionables := fun build_configuration => build_configuration;
  known_scope_infos := fun optionable => [optionable];
  get_full_options := Doubles.parse_double;
  for_global_scope := fun _ => empty_options;
  validate_instance :=
    fun _ => Raise (CollaboratorError "invalid global option")
|}.

Definition fresh : @World collaborators := {|
  _cached_build_config := None;
  sys_path := ["/usr/lib/python3"];
  calls := []
|}.
End DoublesInvalid.

(** ** The stated behaviour, for comparison with the code *)



(** The entry of one special directory as the code computes it: nothing for
    a directory outside the build root and nothing for the build root
    itself, whose relative path is empty. *)
Definition ignore_entry (buildroot dir : string) : list string :=
  match fast_relpath_optional dir buildroot with
  | None => []
  | Some rel =>
      if (rel =? "")%string then []
      else [("/" ++ Str.rstrip rel os_path.sep)%string]
  end.



(** The executor arguments as stated: a supplied maximum is returned as it
    is, a missing one defaults to four times the minimum. *)
Definition stated_executor_arguments (minimum : Z) (maximum : option Z)
    : Z * Z :=
  match maximum with
  | Some m => (minimum, m)
  | None => (minimum, 4 * minimum)
  end.

(** * Properties *)

(** ** Executor arguments *)

Lemma compute_executor_arguments_below_two (o : OptionValueContainer) :
  rule_threads_core o < 2 ->
  compute_executor_arguments o =
    Raise (ValueError "--rule-threads-core values less than 2 are not supported.").
Proof.
  intros Hlt. unfold compute_executor_arguments.
  destruct (rule_threads_core o <? 2) eqn:E; [reflexivity|].
  apply Z.ltb_ge in E. lia.
Qed.

Lemma compute_executor_arguments_falsy_max (o : OptionValueContainer) :
  2 <= rule_threads_core o ->
  truthy (rule_threads_max o) = false ->
  compute_executor_arguments o =
    Return (rule_threads_core o, 4 * rule_threads_core o).
Proof.
  intros Hge Hfalsy. unfold compute_executor_arguments.
  destruct (rule_threads_core o <? 2) eqn:E.
  - apply Z.ltb_lt in E. lia.
  - now rewrite Hfalsy.
Qed.

Lemma compute_executor_arguments_truthy_max (o : OptionValueContainer) (m : Z) :
  2 <= rule_threads_core o ->
  rule_threads_max o = Some m ->
  m <> 0 ->
  compute_executor_arguments o = Return (rule_threads_core o, m).
Proof.
  intros Hge Hmax Hm. unfold compute_executor_arguments.
  destruct (rule_threads_core o <? 2) eqn:E.
  - apply Z.ltb_lt in E. lia.
  - rewrite Hmax. simpl. apply Z.eqb_neq in Hm. now rewrite Hm.
Qed.

(** C5, as stated, fails: with minimum 2 and a supplied maximum of 0 the
    call returns (2, 8), not the pair (2, 0) verbatim. *)
Lemma compute_executor_arguments_zero_max_not_verbatim :
  compute_executor_arguments (with_rule_threads 2 (Some 0) empty_options)
    = Return (2, 8)
  /\ compute_executor_arguments (with_rule_threads 2 (Some 0) empty_options)
    <> Return (stated_executor_arguments 2 (Some 0)).
Proof.
  split; [reflexivity | discriminate].
Qed.

(** C5, amended: [compute_executor_arguments] raises its error for every
    minimum below 2; with minimum 2 and no maximum it returns (2, 8), the
    maximum defaulting to four times the minimum; and for every minimum of
    at least 2 with a supplied maximum other than 0 it returns the pair
    (minimum, maximum) verbatim. *)
Theorem compute_executor_arguments_spec (o : OptionValueContainer) :
  (rule_threads_core o < 2 ->
     exists msg, compute_executor_arguments o = Raise (ValueError msg))
  /\ (2 <= rule_threads_core o -> rule_threads_max o = None ->
        compute_executor_arguments o
          = Return (rule_threads_core o, 4 * rule_threads_core o))
  /\ (forall m, 2 <= rule_threads_core o -> rule_threads_max o = Some m ->
        m <> 0 ->
        compute_executor_arguments o
          = Return (stated_executor_arguments (rule_threads_core o) (Some m))).
Proof.
  repeat split.
  - intros Hlt. eexists. now apply compute_executor_arguments_below_two.
  - intros Hge Hmax. apply compute_executor_arguments_falsy_max; [assumption|].
    now rewrite Hmax.
  - intros m Hge Hmax Hm. now apply compute_executor_arguments_truthy_max.
Qed.

Lemma compute_executor_arguments_spec_witness :
  (exists msg,
     compute_executor_arguments (with_rule_threads 1 None empty_options)
       = Raise (ValueError msg))
  /\ compute_executor_arguments (with_rule_threads 2 None empty_options)
       = Return (2, 8)
  /\ compute_executor_arguments (with_rule_threads 3 (Some 10) empty_options)
       = Return (3, 10).
Proof.
  split; [|split].
  - apply (proj1 (compute_executor_arguments_spec
                    (with_rule_threads 1 None empty_options))).
    simpl. lia.
  - apply (proj1 (proj2 (compute_executor_arguments_spec
                           (with_rule_threads 2 None empty_options))));
      simpl; [lia | reflexivity].
  - apply (proj2 (proj2 (compute_executor_arguments_spec
                           (with_rule_threads 3 (Some 10) empty_options))));
      simpl; [lia | reflexivity | lia].
Defined.

(** C9: a supplied maximum of 0 (any falsy value of the option) is treated
    as no maximum, the call returning (minimum, 4 * minimum); only a
    supplied maximum other than 0 is returned unchanged. *)
Theorem compute_executor_arguments_zero_max (o : OptionValueContainer) :
  2 <= rule_threads_core o ->
  (rule_threads_max o = Some 0 ->
     compute_executor_arguments o
       = Return (rule_threads_core o, 4 * rule_threads_core o))
  /\ (truthy (rule_threads_max o) = false ->
        compute_executor_arguments o
          = Return (rule_threads_core o, 4 * rule_threads_core o))
  /\ (forall m, rule_threads_max o = Some m ->
        (compute_executor_arguments o = Return (rule_threads_core o, m)
         <-> m <> 0)).
Proof.
  intros Hge. split; [|split].
  - intros Hmax. apply compute_executor_arguments_falsy_max; [assumption|].
    now rewrite Hmax.
  - now apply compute_executor_arguments_falsy_max.
  - intros m Hmax. split.
    + intros Heq Hz. subst m.
      rewrite (compute_executor_arguments_falsy_max o Hge) in Heq
        by now rewrite Hmax.
      assert (Hpair : (rule_threads_core o, 4 * rule_threads_core o)
                      = (rule_threads_core o, 0)) by congruence.
      assert (Hsnd : 4 * rule_threads_core o = 0)
        by exact (f_equal snd Hpair).
      lia.
    + intros Hnz. now apply compute_executor_arguments_truthy_max.
Qed.

Lemma compute_executor_arguments_zero_max_witness :
  compute_executor_arguments (with_rule_threads 5 (Some 0) empty_options)
    = Return (5, 20).
Proof.
  apply (proj1 (compute_executor_arguments_zero_max
                  (with_rule_threads 5 (Some 0) empty_options)
                  ltac:(simpl; lia))).
  reflexivity.
Defined.

(** ** Ignore globs *)

Section PantsIgnore.
Local Open Scope string_scope.

Lemma strip_prefix_drop_last (r : string) (c : ascii) :
  Str.strip_prefix (Str.drop_last_if r c) r = Some ""
  \/ Str.strip_prefix (Str.drop_last_if r c) r = Some (String c "").
Proof.
  induction r as [|a r' IH]; [now left|].
  destruct r' as [|b r''].
  - simpl. destruct (Ascii.eqb a c) eqn:E.
    + apply Ascii.eqb_eq in E. subst a. now right.
    + simpl. rewrite Ascii.eqb_refl. now left.
  - change (Str.drop_last_if (String a (String b r'')) c)
      with (String a (Str.drop_last_if (String b r'') c)).
    cbn [Str.strip_prefix]. rewrite Ascii.eqb_refl. exact IH.
Qed.

(** The build root relative to itself is the empty path. *)
Lemma fast_relpath_optional_self (buildroot : string) :
  fast_relpath_optional buildroot buildroot = Some "".
Proof.
  unfold fast_relpath_optional.
  destruct (buildroot =? "") eqn:E.
  - apply String.eqb_eq in E. now subst.
  - destruct (strip_prefix_drop_last buildroot os_path.sep) as [-> | ->].
    + reflexivity.
    + now rewrite Ascii.eqb_refl.
Qed.

Lemma strip_prefix_app (p s : string) :
  Str.strip_prefix p (p ++ s) = Some s.
Proof.
  induction p as [|a p IH]; simpl; [reflexivity|].
  now rewrite Ascii.eqb_refl.
Qed.

Lemma drop_last_if_app_sep (p : string) (c : ascii) :
  Str.drop_last_if (p ++ String c "") c = p.
Proof.
  induction p as [|a p IH]; simpl.
  - now rewrite Ascii.eqb_refl.
  - rewrite IH. destruct p; reflexivity.
Qed.

Lemma drop_last_if_no_sep (p : string) (c : ascii) :
  Str.endswith_char p c = false -> Str.drop_last_if p c = p.
Proof.
  induction p as [|a p IH]; [reflexivity|].
  destruct p as [|b p'].
  - simpl. now intros ->.
  - intros H.
    change (Str.drop_last_if (String a (String b p')) c)
      with (String a (Str.drop_last_if (String b p') c)).
    f_equal. apply IH. exact H.
Qed.

(** A descendant of the build root has the rest of its path as relative
    path, whether or not the build root is written with a trailing
    separator. *)
Lemma fast_relpath_optional_descendant (buildroot rel : string) :
  buildroot <> "" ->
  Str.endswith_char buildroot os_path.sep = false ->
  fast_relpath_optional (buildroot ++ "/" ++ rel) buildroot = Some rel
  /\ fast_relpath_optional (buildroot ++ "/" ++ rel) (buildroot ++ "/")
     = Some rel.
Proof.
  intros Hne Hsep. unfold fast_relpath_optional. split.
  - destruct (buildroot =? "") eqn:E;
      [apply String.eqb_eq in E; contradiction|].
    rewrite (drop_last_if_no_sep _ _ Hsep), strip_prefix_app.
    reflexivity.
  - destruct (buildroot ++ "/" =? "") eqn:E.
    + apply String.eqb_eq in E. destruct buildroot; discriminate.
    + change (buildroot ++ "/") with (buildroot ++ String os_path.sep "").
      rewrite drop_last_if_app_sep, strip_prefix_app. reflexivity.
Qed.



(** [rstrip] removes separators at the end and nothing else. *)
Lemma rstrip_spec (s : string) (c : ascii) :
  Str.endswith_char (Str.rstrip s c) c = false
  /\ exists n, s = Str.rstrip s c ++ Str.times (String c "") n.
Proof.
  induction s as [|a s [IHend [n IHn]]].
  - split; [reflexivity | now exists 0%nat].
  - simpl. destruct (Ascii.eqb a c && (Str.rstrip s c =? "")) eqn:E.
    + apply andb_true_iff in E. destruct E as [Ea Er].
      apply Ascii.eqb_eq in Ea. apply String.eqb_eq in Er. subst a.
      split; [reflexivity|]. exists (S n). simpl.
      rewrite Er in IHn. simpl in IHn. now rewrite <- IHn.
    + split.
      * destruct (Str.rstrip s c) as [|b r] eqn:Er.
        -- simpl. rewrite andb_true_r in E. exact E.
        -- exact IHend.
      * exists n. simpl. now rewrite <- IHn.
Qed.

Lemma add_appends_entry (buildroot : string) (l : list string) (dir : string) :
  add buildroot l dir false = (l ++ ignore_entry buildroot dir)%list.
Proof.
  unfold add, ignore_entry.
  destruct (fast_relpath_optional dir buildroot) as [rel|].
  - destruct (rel =? ""); [now rewrite app_nil_r | reflexivity].
  - now rewrite app_nil_r.
Qed.

Lemma compute_pants_ignore_entries (buildroot : string)
    (go : OptionValueContainer) :
  compute_pants_ignore buildroot go =
    (pants_ignore go
       ++ ignore_entry buildroot (pants_workdir go)
       ++ ignore_entry buildroot (pants_distdir go)
       ++ ignore_entry buildroot (pants_subprocessdir go))%list.
Proof.
  unfold compute_pants_ignore.
  rewrite !add_appends_entry, <- !app_assoc. reflexivity.
Qed.

Lemma ignore_entry_buildroot (buildroot : string) :
  ignore_entry buildroot buildroot = [].
Proof.
  unfold ignore_entry. now rewrite fast_relpath_optional_self.
Qed.
End PantsIgnore.





(** C8: in [compute_pants_ignore], a work, distribution or subprocess
    directory whose path is exactly the build root is skipped: its relative
    path is the empty string, which the test on the relative path treats
    like the outside-the-root case, so no entry is appended for it. *)
Theorem compute_pants_ignore_skips_buildroot (buildroot : string)
    (go : OptionValueContainer) :
  fast_relpath_optional buildroot buildroot = Some ""%string
  /\ (forall l include, add buildroot l buildroot include = l)
  /\ (pants_workdir go = buildroot ->
        compute_pants_ignore buildroot go
          = pants_ignore go
              ++ ignore_entry buildroot (pants_distdir go)
              ++ ignore_entry buildroot (pants_subprocessdir go))
  /\ (pants_distdir go = buildroot ->
        compute_pants_ignore buildroot go
          = pants_ignore go
              ++ ignore_entry buildroot (pants_workdir go)
              ++ ignore_entry buildroot (pants_subprocessdir go))
  /\ (pants_subprocessdir go = buildroot ->
        compute_pants_ignore buildroot go
          = pants_ignore go
              ++ ignore_entry buildroot (pants_workdir go)
              ++ ignore_entry buildroot (pants_distdir go)).
Proof.
  split; [apply fast_relpath_optional_self|].
  split.
  { intros l include. unfold add.
    now rewrite fast_relpath_optional_self. }
  rewrite compute_pants_ignore_entries.
  repeat split; intros ->; rewrite ignore_entry_buildroot;
    now rewrite ?app_nil_r.
Qed.

Lemma compute_pants_ignore_skips_buildroot_witness :
  compute_pants_ignore "/r"
    (with_ignore_inputs ["foo"] "/r" "/r/dist" "/r/.pids" empty_options)
  = ["foo"; "/dist"; "/.pids"].
Proof.
  apply (proj1 (proj2 (proj2 (compute_pants_ignore_skips_buildroot "/r"
           (with_ignore_inputs ["foo"] "/r" "/r/dist" "/r/.pids"
              empty_options))))).
  reflexivity.
Defined.

(** ** Invalidation globs *)

Section InvalidationGlobs.
Variables cwd buildroot : string.

Lemma relativize_globs_app (pre post : list string) (s : OrderedSet.t) :
  relativize_globs cwd buildroot (pre ++ post) s =
    match relativize_globs cwd buildroot pre s with
    | Return s' => relativize_globs cwd buildroot post s'
    | Raise e => Raise e
    end.
Proof.
  revert s. induction pre as [|g pre IH]; intros s; simpl; [reflexivity|].
  destruct (os_path.relpath cwd g buildroot) as [r|e]; [|reflexivity].
  destruct (outside_buildroot r); apply IH.
Qed.

(** An entry the loop drops leaves the set as it was: the loop over a list
    with the entry and over the list without it end alike. *)
Lemma relativize_globs_dropped (pre post : list string) (g r : string)
    (s : OrderedSet.t) :
  os_path.relpath cwd g buildroot = Return r ->
  outside_buildroot r = true ->
  relativize_globs cwd buildroot (pre ++ g :: post) s =
    relativize_globs cwd buildroot (pre ++ post) s.
Proof.
  intros Hrel Hout. rewrite !relativize_globs_app.
  destruct (relativize_globs cwd buildroot pre s) as [s'|e]; [|reflexivity].
  simpl. now rewrite Hrel, Hout.
Qed.

Lemma compute_pantsd_invalidation_globs_dropped
    (sys_path1 sys_path2 : list string) (o1 o2 : OptionValueContainer)
    (pre post : list string) (g r : string) :
  os_path.relpath cwd g buildroot = Return r ->
  outside_buildroot r = true ->
  sys_path1 ++ pythonpath o1 ++ pants_config_files o1 = pre ++ g :: post ->
  sys_path2 ++ pythonpath o2 ++ pants_config_files o2 = pre ++ post ->
  pantsd_invalidation_globs o1 = pantsd_invalidation_globs o2 ->
  compute_pantsd_invalidation_globs cwd sys_path1 buildroot o1 =
    compute_pantsd_invalidation_globs cwd sys_path2 buildroot o2.
Proof.
  intros Hrel Hout H1 H2 Huser. unfold compute_pantsd_invalidation_globs.
  rewrite H1, H2, Huser.
  now rewrite (relativize_globs_dropped pre post g r _ Hrel Hout).
Qed.
End InvalidationGlobs.

(** C7, at an entry the code mishandles: /r/..vendored is a child of the
    build root /r, its relativization "..vendored" is neither "." nor a
    parent-directory traversal, and yet it contributes neither
    "..vendored" nor "..vendored/**": only the always-present globs are
    returned.  An empty entry makes the call raise instead of returning. *)
Theorem compute_pantsd_invalidation_globs_child_lost :
  os_path.relpath "/" "/r/..vendored" "/r" = Return "..vendored"%string
  /\ compute_pantsd_invalidation_globs "/" [] "/r"
       (with_glob_inputs ["/r/..vendored"] [] [] empty_options)
     = Return ["!*.pyc"; "!__pycache__/"; "requirements.txt";
               "3rdparty/**/requirements.txt"]%string
  /\ compute_pantsd_invalidation_globs "/" [] "/r"
       (with_glob_inputs ["/r/vendored"] [] [] empty_options)
     = Return ["vendored"; "vendored/**"; "!*.pyc"; "!__pycache__/";
               "requirements.txt"; "3rdparty/**/requirements.txt"]%string
  /\ compute_pantsd_invalidation_globs "/" [""%string] "/r" empty_options
     = Raise (ValueError "no path specified").
Proof.
  repeat split; reflexivity.
Qed.

(** C10: [compute_pantsd_invalidation_globs] decides that an entry lies
    outside the build root by a string-prefix test: any entry whose
    relativized path starts with the two characters ".." is dropped and
    contributes no invalidation globs, wherever it comes from (module search
    path, extra search paths, config files); so an entry inside the build
    root whose first path component begins with "..", such as the child
    directory "..vendored" of /r, is dropped as well. *)
Theorem dotdot_prefix_entry_dropped (cwd buildroot g r : string)
    (sys_path0 extra config_files user pre post : list string)
    (o : OptionValueContainer) :
  os_path.relpath cwd g buildroot = Return r ->
  Str.startswith r ".." = true ->
  compute_pantsd_invalidation_globs cwd (pre ++ g :: post) buildroot
      (with_glob_inputs extra config_files user o)
    = compute_pantsd_invalidation_globs cwd (pre ++ post) buildroot
        (with_glob_inputs extra config_files user o)
  /\ compute_pantsd_invalidation_globs cwd sys_path0 buildroot
       (with_glob_inputs (pre ++ g :: post) config_files user o)
     = compute_pantsd_invalidation_globs cwd sys_path0 buildroot
         (with_glob_inputs (pre ++ post) config_files user o)
  /\ compute_pantsd_invalidation_globs cwd sys_path0 buildroot
       (with_glob_inputs extra (pre ++ g :: post) user o)
     = compute_pantsd_invalidation_globs cwd sys_path0 buildroot
         (with_glob_inputs extra (pre ++ post) user o)
  /\ os_path.relpath cwd "/r/..vendored" "/r" = Return "..vendored"%string
  /\ compute_pantsd_invalidation_globs cwd ["/r/..vendored"%string] "/r"
       (with_glob_inputs [] [] user o)
     = compute_pantsd_invalidation_globs cwd [] "/r"
         (with_glob_inputs [] [] user o).
Proof.
  intros Hrel Hpre.
  assert (Hout : outside_buildroot r = true).
  { unfold outside_buildroot. rewrite Hpre. apply orb_true_r. }
  split; [|split; [|split; [|split]]].
  - apply (compute_pantsd_invalidation_globs_dropped cwd buildroot _ _ _ _
             pre (post ++ extra ++ config_files) g r Hrel Hout);
      simpl; now rewrite <- ?app_assoc.
  - apply (compute_pantsd_invalidation_globs_dropped cwd buildroot _ _ _ _
             (sys_path0 ++ pre) (post ++ config_files) g r Hrel Hout);
      simpl; now rewrite <- ?app_assoc.
  - apply (compute_pantsd_invalidation_globs_dropped cwd buildroot _ _ _ _
             (sys_path0 ++ extra ++ pre) post g r Hrel Hout);
      simpl; now rewrite <- ?app_assoc.
  - reflexivity.
  - reflexivity.
Qed.

Lemma dotdot_prefix_entry_dropped_witness :
  compute_pantsd_invalidation_globs "/home"
      ["/r/src"; "/r/..vendored"; "/r/lib"] "/r"
      (with_glob_inputs [] [] [] empty_options)
    = compute_pantsd_invalidation_globs "/home"
        ["/r/src"; "/r/lib"] "/r"
        (with_glob_inputs [] [] [] empty_options).
Proof.
  apply (proj1 (dotdot_prefix_entry_dropped "/home" "/r" "/r/..vendored"
                  "..vendored" [] [] [] [] ["/r/src"%string]
                  ["/r/lib"%string] empty_options
                  ltac:(reflexivity) ltac:(reflexivity))).
Defined.

(** ** The build-configuration cache and the options assembler *)

Ltac run_monad :=
  unfold bind, ret, raise, lift, record_call, read_cache, write_cache,
    read_sys_path, sys_path_append in *; simpl in *.

Section InitializerProperties.
Context `{C : Collaborators}.
Local Open Scope init_scope.

(** The search-path loop always completes; it leaves the cache alone and
    only adds to the calls made. *)
Lemma extend_sys_path_frame (paths : list string) (w : World) :
  exists w',
    extend_sys_path paths w = (Return tt, w')
    /\ _cached_build_config w' = _cached_build_config w
    /\ exists made, calls w' = calls w ++ made.
Proof.
  revert w. induction paths as [|path rest IH]; intros w.
  - exists w. repeat split. exists []. now rewrite app_nil_r.
  - cbn [extend_sys_path]. run_monad.
    destruct (existsb (String.eqb path) (sys_path w)).
    + apply IH.
    + destruct (IH {| _cached_build_config := _cached_build_config w;
                      sys_path := sys_path w ++ [path];
                      calls := calls w
                                 ++ [fixup_namespace_packages_call path] |})
        as (w' & Hrun & Hcache & made & Hcalls).
      exists w'. split; [exact Hrun|]. split; [exact Hcache|].
      exists (fixup_namespace_packages_call path :: made).
      simpl in Hcalls. now rewrite Hcalls, <- app_assoc.
Qed.

(** [create] never touches the cache. *)
Lemma create_cache (b : OptionsBootstrapper) (bc : BuildConfiguration)
    (w : World) :
  _cached_build_config (snd (create b bc w)) = _cached_build_config w.
Proof.
  unfold create. run_monad.
  destruct (get_bootstrap_options b) as [o|e]; [|reflexivity].
  destruct (negb (pants_version o =? running_pants_version)%string);
    [reflexivity|].
  destruct (get_full_options b _) as [options|e]; [|reflexivity].
  destruct (validate_instance _) as [[]|e]; reflexivity.
Qed.

(** With a value cached, [get] returns it and does nothing else. *)
Lemma get_cached (b : OptionsBootstrapper) (bc : BuildConfiguration)
    (w : World) :
  _cached_build_config w = Some bc -> get b w = (Return bc, w).
Proof.
  intros Hc. unfold get. run_monad. now rewrite Hc.
Qed.

(** Whatever [get] returns is what the cache holds afterwards. *)
Lemma get_returns_cached (b : OptionsBootstrapper) (bc : BuildConfiguration)
    (w w1 : World) :
  get b w = (Return bc, w1) -> _cached_build_config w1 = Some bc.
Proof.
  unfold get. run_monad.
  destruct (_cached_build_config w) as [c|] eqn:Hc.
  - intros H. inversion H. subst. exact Hc.
  - destruct (init b w) as [[self|e] w0]; [|discriminate].
    destruct (setup self w0) as [[bc'|e] w0']; [|discriminate].
    intros H. inversion H. reflexivity.
Qed.

(** With nothing cached, [get] is the construction followed by the
    assignment. *)
Lemma get_uncached (b : OptionsBootstrapper) (w : World) :
  _cached_build_config w = None ->
  get b w =
    (self <- init b ;;
     build_config <- setup self ;;
     write_cache (Some build_config) ;;
     ret build_config) w.
Proof.
  intros Hc. unfold get. unfold bind at 1. unfold read_cache.
  now rewrite Hc.
Qed.

(** C3: for every pair of bootstrap inputs, equal or not, a [get] that
    follows a [get] that returned, with no [reset] in between, returns the
    identical build configuration and performs no plugin resolution, no
    search-path mutation and no activation: the world it leaves is the
    world it found.  The cache is first-call-wins. *)
Theorem get_first_call_wins (b1 b2 : OptionsBootstrapper)
    (bc : BuildConfiguration) (w w1 : World) :
  get b1 w = (Return bc, w1) ->
  get b2 w1 = (Return bc, w1)
  /\ calls (snd (get b2 w1)) = calls w1
  /\ sys_path (snd (get b2 w1)) = sys_path w1.
Proof.
  intros H1. apply get_returns_cached in H1.
  rewrite (get_cached b2 bc w1 H1). repeat split.
Qed.

(** C4: when the plugin resolver or the activator raises during a [get]
    that finds nothing cached, [get] raises that very error and the cache
    stays unset, so that a later [get] runs the construction again,
    calling the resolver anew. *)
Theorem get_failure_not_cached (b : OptionsBootstrapper) (w : World)
    (o : OptionValueContainer) (e : exn) :
  _cached_build_config w = None ->
  get_bootstrap_options b = Return o ->
  (resolve b = Raise e
   \/ exists ws, resolve b = Return ws
        /\ load_backends_and_plugins (plugins o) ws (backend_packages o)
           = Raise e) ->
  fst (get b w) = Raise e
  /\ _cached_build_config (snd (get b w)) = None
  /\ (forall b2,
        get b2 (snd (get b w)) =
          (self <- init b2 ;;
           build_config <- setup self ;;
           write_cache (Some build_config) ;;
           ret build_config) (snd (get b w)))
  /\ (forall b2 o2, get_bootstrap_options b2 = Return o2 ->
        exists made,
          calls (snd (get b2 (snd (get b w))))
            = calls (snd (get b w)) ++ resolve_call b2 :: made).
Proof.
  intros Hc Ho Hfail.
  assert (Hres : fst (get b w) = Raise e
                 /\ _cached_build_config (snd (get b w)) = None).
  { rewrite (get_uncached b w Hc). unfold init. run_monad. rewrite Ho.
    destruct Hfail as [Hr | (ws & Hr & Hl)]; rewrite Hr; simpl.
    - split; [reflexivity | exact Hc].
    - destruct (extend_sys_path_frame (pythonpath o)
                  {| _cached_build_config := _cached_build_config w;
                     sys_path := sys_path w;
                     calls := calls w ++ [resolve_call b] |})
        as (w' & Hrun & Hcache & _).
      unfold setup. run_monad. rewrite Hrun. simpl. rewrite Hl. simpl.
      split; [reflexivity|]. now rewrite Hcache. }
  destruct Hres as [Hraise Hunset].
  split; [exact Hraise|]. split; [exact Hunset|]. split.
  - intros b2. now apply get_uncached.
  - intros b2 o2 Ho2. rewrite (get_uncached b2 _ Hunset).
    set (w0 := snd (get b w)). unfold init. run_monad. rewrite Ho2.
    destruct (resolve b2) as [ws2|e2]; simpl.
    + destruct (extend_sys_path_frame (pythonpath o2)
                  {| _cached_build_config := _cached_build_config w0;
                     sys_path := sys_path w0;
                     calls := calls w0 ++ [resolve_call b2] |})
        as (w' & Hrun & _ & made & Hcalls).
      unfold setup. run_monad. rewrite Hrun. simpl.
      destruct (load_backends_and_plugins (plugins o2) ws2
                  (backend_packages o2)); simpl; rewrite Hcalls;
        eexists; rewrite <- !app_assoc; simpl; reflexivity.
    + now exists [].
Qed.

(** C2: when the declared version of the bootstrap options differs from
    the running version, [create] raises a configuration error whose
    message names the requested version and then the running version, and
    it does so before any scope is collected and before any full parse:
    the world, with its record of calls, is left as it was found. *)
Theorem create_version_mismatch (b : OptionsBootstrapper)
    (bc : BuildConfiguration) (w : World) (o : OptionValueContainer) :
  get_bootstrap_options b = Return o ->
  pants_version o <> running_pants_version ->
  create b bc w =
    (Raise (BuildConfigurationError
              (version_mismatch_message (pants_version o)
                 running_pants_version)), w)
  /\ calls (snd (create b bc w)) = calls w
  /\ exists before between after,
       version_mismatch_message (pants_version o) running_pants_version
       = (before ++ pants_version o ++ between
            ++ running_pants_version ++ after)%string.
Proof.
  intros Ho Hne.
  assert (Hrun : create b bc w =
            (Raise (BuildConfigurationError
                      (version_mismatch_message (pants_version o)
                         running_pants_version)), w)).
  { unfold create. run_monad. rewrite Ho.
    apply String.eqb_neq in Hne. now rewrite Hne. }
  split; [exact Hrun|]. split; [now rewrite Hrun|].
  now exists "Version mismatch: Requested version was "%string,
             ", our version is "%string, "."%string.
Qed.

(** C1, what the code does: when [create] raises [UnknownFlagsError] and
    the second [create], on the bootstrapper with the placeholder
    argument, returns, the diagnostic is produced once with those clean
    options and the original error; then under [raise_ = true] the
    original error is raised again, while under [raise_ = false]
    [create_with_build_config] goes on to read the local [options], which
    was never assigned, and raises [UnboundLocalError]. *)
Theorem create_with_build_config_unknown_flags (b : OptionsBootstrapper)
    (w w1 w2 w3 : World) (bc : BuildConfiguration) (options : Options)
    (flags : list string) (arg_scope : string) (raise_ : bool) :
  get b w = (Return bc, w1) ->
  create b bc w1 = (Raise (UnknownFlagsError flags arg_scope), w2) ->
  create (replace_args b ["dummy_first_arg"%string]) bc w2
    = (Return options, w3) ->
  create_with_build_config b raise_ w =
    (Raise (if raise_ then UnknownFlagsError flags arg_scope
            else UnboundLocalError "options"),
     {| _cached_build_config := _cached_build_config w3;
        sys_path := sys_path w3;
        calls := calls w3
                   ++ [handle_unknown_flags_call options
                         (UnknownFlagsError flags arg_scope)] |}).
Proof.
  intros Hget Hcreate Hclean.
  assert (Hc2 : _cached_build_config w2 = Some bc).
  { pose proof (create_cache b bc w1) as Hfr. rewrite Hcreate in Hfr.
    simpl in Hfr. rewrite Hfr. exact (get_returns_cached b bc w w1 Hget). }
  unfold create_with_build_config, handle_unknown_flags.
  unfold bind at 1. rewrite Hget.
  unfold bind at 1. rewrite Hcreate.
  unfold bind at 1. rewrite (get_cached b bc w2 Hc2).
  unfold bind at 1. rewrite Hclean.
  run_monad. destruct raise_; reflexivity.
Qed.
End InitializerProperties.

(** ** The theorems at the test doubles *)

Lemma get_first_call_wins_witness :
  get (C := Doubles.collaborators) DoublesRun.other DoublesRun.warmed
  = (Return ["p1"; "pants.backend.python"]%string, DoublesRun.warmed).
Proof.
  apply (proj1 (get_first_call_wins (C := Doubles.collaborators)
                  DoublesRun.good DoublesRun.other
                  ["p1"; "pants.backend.python"]%string
                  Doubles.fresh DoublesRun.warmed eq_refl)).
Defined.

Lemma get_failure_not_cached_witness :
  (fst (get (C := Doubles.collaborators) DoublesRun.unresolvable Doubles.fresh)
     = Raise (CollaboratorError "plugin resolution failed")
   /\ _cached_build_config
        (snd (get (C := Doubles.collaborators) DoublesRun.unresolvable
                Doubles.fresh)) = None)
  /\ (fst (get (C := Doubles.collaborators) DoublesRun.conflicting Doubles.fresh)
        = Raise (CollaboratorError "duplicate registration")
      /\ _cached_build_config
           (snd (get (C := Doubles.collaborators) DoublesRun.conflicting
                   Doubles.fresh)) = None).
Proof.
  split.
  - pose proof (get_failure_not_cached (C := Doubles.collaborators)
                  DoublesRun.unresolvable Doubles.fresh
                  (Doubles.bootstrap_options_of DoublesRun.unresolvable)
                  (CollaboratorError "plugin resolution failed")
                  eq_refl eq_refl (or_introl eq_refl)) as H.
    exact (conj (proj1 H) (proj1 (proj2 H))).
  - pose proof (get_failure_not_cached (C := Doubles.collaborators)
                  DoublesRun.conflicting Doubles.fresh
                  (Doubles.bootstrap_options_of DoublesRun.conflicting)
                  (CollaboratorError "duplicate registration")
                  eq_refl eq_refl
                  (or_intror (ex_intro _ ["conflicting"%string]
                                (conj eq_refl eq_refl)))) as H.
    exact (conj (proj1 H) (proj1 (proj2 H))).
Defined.

Lemma create_version_mismatch_witness :
  create (C := Doubles.collaborators) DoublesRun.stale
    ["p1"; "pants.backend.python"]%string DoublesRun.warmed
  = (Raise (BuildConfigurationError
              "Version mismatch: Requested version was 1.9.0, our version is 2.0.0."),
     DoublesRun.warmed).
Proof.
  apply (proj1 (create_version_mismatch (C := Doubles.collaborators)
                  DoublesRun.stale ["p1"; "pants.backend.python"]%string
                  DoublesRun.warmed
                  (Doubles.bootstrap_options_of DoublesRun.stale)
                  eq_refl ltac:(discriminate))).
Defined.

Lemma create_with_build_config_unknown_flags_witness :
  fst (create_with_build_config (C := Doubles.collaborators)
         DoublesRun.mistyped false Doubles.fresh)
    = Raise (UnboundLocalError "options")
  /\ fst (create_with_build_config (C := Doubles.collaborators)
            DoublesRun.mistyped true Doubles.fresh)
    = Raise (UnknownFlagsError ["--bogus"%string] "").
Proof.
  pose (w1 := snd (get (C := Doubles.collaborators) DoublesRun.mistyped
                     Doubles.fresh)).
  pose (bc := ["p1"; "pants.backend.python"]%string).
  pose (w2 := snd (create (C := Doubles.collaborators) DoublesRun.mistyped
                     bc w1)).
  pose (w3 := snd (create (C := Doubles.collaborators)
                     (replace_args DoublesRun.mistyped
                        ["dummy_first_arg"%string]) bc w2)).
  split.
  - rewrite (create_with_build_config_unknown_flags
               (C := Doubles.collaborators) DoublesRun.mistyped
               Doubles.fresh w1 w2 w3 bc ["dummy_first_arg"%string]
               ["--bogus"%string] "" false eq_refl eq_refl eq_refl).
    reflexivity.
  - rewrite (create_with_build_config_unknown_flags
               (C := Doubles.collaborators) DoublesRun.mistyped
               Doubles.fresh w1 w2 w3 bc ["dummy_first_arg"%string]
               ["--bogus"%string] "" true eq_refl eq_refl eq_refl).
    reflexivity.
Defined.

(** ** Further properties of the invalidation globs *)

Section OrderedSetFacts.
Lemma contains_In (s : OrderedSet.t) (x : string) :
  OrderedSet.contains s x = true <-> In x s.
Proof.
  unfold OrderedSet.contains. rewrite existsb_exists. split.
  - intros (y & Hin & Heq). apply String.eqb_eq in Heq. now subst.
  - intros Hin. exists x. split; [exact Hin | apply String.eqb_refl].
Qed.

Lemma add_In (s : OrderedSet.t) (x y : string) :
  In y (OrderedSet.add s x) <-> In y s \/ y = x.
Proof.
  unfold OrderedSet.add.
  destruct (OrderedSet.contains s x) eqn:E.
  - apply contains_In in E. split; [now left|].
    intros [H | ->]; assumption.
  - rewrite in_app_iff. simpl. intuition congruence.
Qed.

Lemma add_NoDup (s : OrderedSet.t) (x : string) :
  NoDup s -> NoDup (OrderedSet.add s x).
Proof.
  intros Hnd. unfold OrderedSet.add.
  destruct (OrderedSet.contains s x) eqn:E; [exact Hnd|].
  assert (Hnotin : ~ In x s).
  { intros Hin. apply contains_In in Hin. congruence. }
  clear E. induction s as [|a s IH]; simpl.
  - constructor; [intros [] | constructor].
  - inversion Hnd as [|? ? Ha Hs]; subst. constructor.
    + rewrite in_app_iff. simpl. intros [H | [H | []]]; [contradiction|].
      subst. apply Hnotin. now left.
    + apply IH; [exact Hs|]. intros H. apply Hnotin. now right.
Qed.

Lemma update_In (xs : list string) (s : OrderedSet.t) (y : string) :
  In y (OrderedSet.update s xs) <-> In y s \/ In y xs.
Proof.
  revert s. unfold OrderedSet.update.
  induction xs as [|x xs IH]; intros s; simpl; [intuition|].
  rewrite IH, add_In. intuition.
Qed.

Lemma update_NoDup (xs : list string) (s : OrderedSet.t) :
  NoDup s -> NoDup (OrderedSet.update s xs).
Proof.
  revert s. unfold OrderedSet.update.
  induction xs as [|x xs IH]; intros s Hnd; simpl; [exact Hnd|].
  apply IH. now apply add_NoDup.
Qed.

(** Members keep their place: updating only adds at the end. *)
Lemma update_extends (xs : list string) (s : OrderedSet.t) :
  exists added, OrderedSet.update s xs = s ++ added.
Proof.
  revert s. unfold OrderedSet.update.
  induction xs as [|x xs IH]; intros s; simpl.
  - exists []. now rewrite app_nil_r.
  - destruct (IH (OrderedSet.add s x)) as [added Hadded]. rewrite Hadded.
    unfold OrderedSet.add. destruct (OrderedSet.contains s x).
    + now exists added.
    + exists (x :: added). now rewrite <- app_assoc.
Qed.
End OrderedSetFacts.

Section RelativizeFacts.
Variables cwd buildroot : string.

Lemma relativize_globs_In (globs : list string) (s s' : OrderedSet.t)
    (x : string) :
  relativize_globs cwd buildroot globs s = Return s' ->
  (In x s' <->
   In x s \/ exists glob, In glob globs /\ contributed cwd buildroot glob x).
Proof.
  revert s. induction globs as [|g globs IH]; intros s H;
    cbn [relativize_globs] in H.
  - inversion H. subst. split; [now left|].
    intros [Hin | (glob & [] & _)]. exact Hin.
  - destruct (os_path.relpath cwd g buildroot) as [r|e] eqn:Hrel;
      [|discriminate].
    destruct (outside_buildroot r) eqn:Hout.
    + rewrite (IH _ H). split.
      * intros [Hin | (glob & Hin & Hc)]; [now left|].
        right. exists glob. split; [now right | exact Hc].
      * intros [Hin | (glob & [Heq | Hin] & Hc)]; [now left | |].
        -- subst glob. destruct Hc as (r' & Hrel' & Hout' & _).
           congruence.
        -- right. now exists glob.
    + rewrite (IH _ H), update_In. simpl. split.
      * intros [[Hin | [Heq | [Heq | []]]] | (glob & Hin & Hc)].
        -- now left.
        -- right. exists g. split; [now left|]. exists r. auto.
        -- right. exists g. split; [now left|]. exists r. auto.
        -- right. exists glob. split; [now right | exact Hc].
      * intros [Hin | (glob & [Heq | Hin] & Hc)].
        -- left. now left.
        -- subst glob. destruct Hc as (r' & Hrel' & _ & Hx).
           assert (r' = r) by congruence. subst r'.
           left. right. destruct Hx as [-> | ->]; simpl; auto.
        -- right. now exists glob.
Qed.

Lemma relativize_globs_NoDup (globs : list string) (s s' : OrderedSet.t) :
  relativize_globs cwd buildroot globs s = Return s' ->
  NoDup s -> NoDup s'.
Proof.
  revert s. induction globs as [|g globs IH]; intros s H Hnd;
    cbn [relativize_globs] in H.
  - inversion H. now subst.
  - destruct (os_path.relpath cwd g buildroot) as [r|e]; [|discriminate].
    destruct (outside_buildroot r).
    + exact (IH _ H Hnd).
    + apply (IH _ H). now apply update_NoDup.
Qed.

(** The loop returns exactly when no entry is the empty string. *)
Lemma relpath_returns (glob : string) :
  glob <> ""%string ->
  exists r, os_path.relpath cwd glob buildroot = Return r.
Proof.
  intros Hne. unfold os_path.relpath.
  apply String.eqb_neq in Hne. rewrite Hne.
  match goal with |- context [match ?l with [] => _ | _ => _ end] =>
    destruct l end; eexists; reflexivity.
Qed.

Lemma relativize_globs_returns (globs : list string) (s : OrderedSet.t) :
  ~ In ""%string globs ->
  exists s', relativize_globs cwd buildroot globs s = Return s'.
Proof.
  revert s. induction globs as [|g globs IH]; intros s Hne; simpl.
  - now exists s.
  - destruct (relpath_returns g) as [r Hr].
    { intros ->. apply Hne. now left. }
    rewrite Hr. destruct (outside_buildroot r); apply IH;
      intros Hin; apply Hne; now right.
Qed.
End RelativizeFacts.

(** X1: the part of the invalidation-glob computation that holds for every
    input: when no entry is the empty string the call returns; the sequence
    returned has no string twice; it holds the four always-present globs and
    every user glob; and a string is in it exactly when it is one of those
    or is the relativized path, or that path followed by "/**", of an entry
    that the prefix test keeps. *)
Theorem compute_pantsd_invalidation_globs_members (cwd buildroot : string)
    (sys_path0 : list string) (o : OptionValueContainer) :
  ~ In ""%string (sys_path0 ++ pythonpath o ++ pants_config_files o) ->
  exists globs,
    compute_pantsd_invalidation_globs cwd sys_path0 buildroot o = Return globs
    /\ NoDup globs
    /\ forall x,
         In x globs <->
         (In x fixed_globs \/ In x (pantsd_invalidation_globs o)
          \/ exists glob,
               In glob (sys_path0 ++ pythonpath o ++ pants_config_files o)
               /\ contributed cwd buildroot glob x).
Proof.
  intros Hne. unfold compute_pantsd_invalidation_globs.
  destruct (relativize_globs_returns cwd buildroot _ OrderedSet.empty Hne)
    as [s Hs].
  rewrite Hs. eexists. split; [reflexivity|]. split.
  - apply update_NoDup.
    apply (relativize_globs_NoDup cwd buildroot _ _ _ Hs). constructor.
  - intros x. rewrite update_In, in_app_iff.
    rewrite (relativize_globs_In cwd buildroot _ _ _ x Hs).
    unfold OrderedSet.empty. simpl. tauto.
Qed.

Lemma compute_pantsd_invalidation_globs_members_witness :
  exists globs,
    compute_pantsd_invalidation_globs "/home" ["/r/src"%string] "/r"
      (with_glob_inputs ["/r/src"%string] ["/r/pants.toml"%string]
         ["!*.pyc"%string] empty_options) = Return globs
    /\ NoDup globs.
Proof.
  destruct (compute_pantsd_invalidation_globs_members "/home" "/r"
              ["/r/src"%string]
              (with_glob_inputs ["/r/src"%string] ["/r/pants.toml"%string]
                 ["!*.pyc"%string] empty_options)) as (globs & H & Hnd & _).
  - simpl. intros [H | [H | [H | []]]]; discriminate.
  - exists globs. now split.
Defined.

(** ** Further properties of the initializers *)

Section InitializerFurther.
Context `{C : Collaborators}.
Local Open Scope init_scope.

(** The search-path loop records nothing but namespace fix-ups. *)
Lemma extend_sys_path_calls (paths : list string) (w : World) :
  exists made,
    calls (snd (extend_sys_path paths w)) = calls w ++ made
    /\ Forall (fun c => exists path, c = fixup_namespace_packages_call path)
         made.
Proof.
  revert w. induction paths as [|path rest IH]; intros w.
  - exists []. split; [simpl; now rewrite app_nil_r | constructor].
  - cbn [extend_sys_path]. run_monad.
    destruct (existsb (String.eqb path) (sys_path w)).
    + apply IH.
    + destruct (IH {| _cached_build_config := _cached_build_config w;
                      sys_path := sys_path w ++ [path];
                      calls := calls w
                                 ++ [fixup_namespace_packages_call path] |})
        as (made & Hcalls & Hall).
      exists (fixup_namespace_packages_call path :: made). split.
      * simpl in Hcalls. now rewrite Hcalls, <- app_assoc.
      * constructor; [now exists path | exact Hall].
Qed.

(** A construction that returns records one resolution, then fix-ups of
    the search path, then one activation, and caches what it returns. *)
Lemma get_uncached_returns (b : OptionsBootstrapper) (w w1 : World)
    (o : OptionValueContainer) (bc : BuildConfiguration) :
  _cached_build_config w = None ->
  get_bootstrap_options b = Return o ->
  get b w = (Return bc, w1) ->
  exists fixups,
    calls w1 = calls w ++ resolve_call b :: fixups
                 ++ [load_backends_and_plugins_call (plugins o)
                       (backend_packages o)]
    /\ Forall (fun c => exists path, c = fixup_namespace_packages_call path)
         fixups.
Proof.
  intros Hc Ho. rewrite (get_uncached b w Hc). unfold init. run_monad.
  rewrite Ho. destruct (resolve b) as [ws|e]; simpl; [|discriminate].
  unfold setup. run_monad.
  destruct (extend_sys_path_frame (pythonpath o)
              {| _cached_build_config := _cached_build_config w;
                 sys_path := sys_path w;
                 calls := calls w ++ [resolve_call b] |})
    as (w' & Hrun & _).
  destruct (extend_sys_path_calls (pythonpath o)
              {| _cached_build_config := _cached_build_config w;
                 sys_path := sys_path w;
                 calls := calls w ++ [resolve_call b] |})
    as (fixups & Hcalls & Hall).
  rewrite Hrun in *. simpl in *.
  destruct (load_backends_and_plugins (plugins o) ws (backend_packages o));
    simpl; [|discriminate].
  intros H. inversion H. subst. simpl. exists fixups.
  split; [|exact Hall]. rewrite Hcalls, <- !app_assoc. reflexivity.
Qed.

(** X2: [reset] clears the cache and nothing else, and a [get] that follows
    and returns has resolved and activated once more. *)
Theorem reset_then_get_activates_again (b : OptionsBootstrapper)
    (w w1 : World) (o : OptionValueContainer) (bc : BuildConfiguration) :
  get_bootstrap_options b = Return o ->
  get b (snd (reset w)) = (Return bc, w1) ->
  fst (reset w) = Return tt
  /\ _cached_build_config (snd (reset w)) = None
  /\ sys_path (snd (reset w)) = sys_path w
  /\ calls (snd (reset w)) = calls w
  /\ _cached_build_config w1 = Some bc
  /\ exists fixups,
       calls w1 = calls w ++ resolve_call b :: fixups
                    ++ [load_backends_and_plugins_call (plugins o)
                          (backend_packages o)]
       /\ Forall (fun c => exists path, c = fixup_namespace_packages_call path)
            fixups.
Proof.
  intros Ho Hget. repeat (split; [reflexivity|]).
  split; [exact (get_returns_cached b bc _ w1 Hget)|].
  exact (get_uncached_returns b (snd (reset w)) w1 o bc eq_refl Ho Hget).
Qed.

(** X3: the recovery flow intercepts [UnknownFlagsError] only: a block that
    returns gives its value, and any other error leaves the manager as the
    block raised it, with no diagnostic and no second parse. *)
Theorem handle_unknown_flags_passes_through {A} (b : OptionsBootstrapper)
    (raise_ : bool) (body : M A) (w : World) :
  (forall a w', body w = (Return a, w') ->
     handle_unknown_flags b raise_ body w = (Return (Some a), w'))
  /\ (forall e w', body w = (Raise e, w') ->
        (forall flags arg_scope, e <> UnknownFlagsError flags arg_scope) ->
        handle_unknown_flags b raise_ body w = (Raise e, w')).
Proof.
  split.
  - intros a w' H. unfold handle_unknown_flags. now rewrite H.
  - intros e w' H Hother. unfold handle_unknown_flags. rewrite H.
    destruct e; try reflexivity. now destruct (Hother flags arg_scope).
Qed.

(** X4: when [get] and [create] both return, [create_with_build_config]
    returns the two values, whatever [raise_] is. *)
Theorem create_with_build_config_returns (b : OptionsBootstrapper)
    (raise_ : bool) (w w1 w2 : World) (bc : BuildConfiguration)
    (options : Options) :
  get b w = (Return bc, w1) ->
  create b bc w1 = (Return options, w2) ->
  create_with_build_config b raise_ w = (Return (bc, options), w2).
Proof.
  intros Hget Hcreate. unfold create_with_build_config, handle_unknown_flags.
  unfold bind at 1. rewrite Hget.
  unfold bind at 1. now rewrite Hcreate.
Qed.
End InitializerFurther.

Lemma reset_then_get_activates_again_witness :
  calls (snd (get (C := Doubles.collaborators) DoublesRun.other
                (snd (reset DoublesRun.warmed))))
  = calls DoublesRun.warmed
      ++ [resolve_call DoublesRun.other;
          load_backends_and_plugins_call ["p2"; "p3"]%string
            ["pants.backend.python"%string]].
Proof.
  destruct (reset_then_get_activates_again (C := Doubles.collaborators)
              DoublesRun.other DoublesRun.warmed
              (snd (get (C := Doubles.collaborators) DoublesRun.other
                      (snd (reset DoublesRun.warmed))))
              (Doubles.bootstrap_options_of DoublesRun.other)
              ["p2"; "p3"; "pants.backend.python"]%string
              eq_refl eq_refl) as (_ & _ & _ & _ & _ & fixups & Hcalls & _).
  reflexivity.
Defined.

Lemma handle_unknown_flags_passes_through_witness :
  handle_unknown_flags (C := Doubles.collaborators) DoublesRun.stale false
    (create (C := Doubles.collaborators) DoublesRun.stale
       ["p1"; "pants.backend.python"]%string)
    DoublesRun.warmed
  = (Raise (BuildConfigurationError
              "Version mismatch: Requested version was 1.9.0, our version is 2.0.0."),
     DoublesRun.warmed).
Proof.
  apply (proj2 (handle_unknown_flags_passes_through
                  (C := Doubles.collaborators) DoublesRun.stale false
                  (create (C := Doubles.collaborators) DoublesRun.stale
                     ["p1"; "pants.backend.python"]%string)
                  DoublesRun.warmed)).
  - reflexivity.
  - discriminate.
Defined.

Lemma create_with_build_config_returns_witness :
  fst (create_with_build_config (C := Doubles.collaborators)
         DoublesRun.good true Doubles.fresh)
  = Return (["p1"; "pants.backend.python"]%string,
            ["./pants"; "list"]%string).
Proof.
  rewrite (create_with_build_config_returns (C := Doubles.collaborators)
             DoublesRun.good true Doubles.fresh DoublesRun.warmed
             (snd (create (C := Doubles.collaborators) DoublesRun.good
                     ["p1"; "pants.backend.python"]%string
                     DoublesRun.warmed))
             ["p1"; "pants.backend.python"]%string
             ["./pants"; "list"]%string eq_refl eq_refl).
  reflexivity.
Defined.

(** ** The module search path under [setup] *)

Section SearchPath.
Context `{C : Collaborators}.
Local Open Scope init_scope.

Lemma existsb_eqb_In (x : string) (l : list string) :
  existsb (String.eqb x) l = true <-> In x l.
Proof.
  rewrite existsb_exists. split.
  - intros (y & Hin & Heq). apply String.eqb_eq in Heq. now subst.
  - intros Hin. exists x. split; [exact Hin | apply String.eqb_refl].
Qed.

(** The loop of [setup] in closed form: the paths appended are the entries
    of [paths] that [sys.path] lacks, each once, in order of first mention,
    and each is followed by its namespace fix-up. *)
Lemma extend_sys_path_spec (paths : list string) (w : World) :
  exists added,
    extend_sys_path paths w =
      (Return tt,
       {| _cached_build_config := _cached_build_config w;
          sys_path := sys_path w ++ added;
          calls := calls w ++ map fixup_namespace_packages_call added |})
    /\ NoDup added
    /\ forall p, In p added <-> In p paths /\ ~ In p (sys_path w).
Proof.
  revert w. induction paths as [|path rest IH]; intros w.
  - exists []. split; [|split].
    + destruct w. simpl. unfold ret. now rewrite !app_nil_r.
    + constructor.
    + intros p. simpl. tauto.
  - cbn [extend_sys_path]. run_monad.
    destruct (existsb (String.eqb path) (sys_path w)) eqn:E.
    + apply existsb_eqb_In in E.
      destruct (IH w) as (added & Hrun & Hnd & Hin).
      exists added. split; [exact Hrun|]. split; [exact Hnd|].
      intros p. rewrite Hin. simpl. split.
      * intros [H1 H2]. auto.
      * intros [[-> | H1] H2]; [contradiction | auto].
    + assert (Hnotin : ~ In path (sys_path w)).
      { intros Hin. apply existsb_eqb_In in Hin. congruence. }
      destruct (IH {| _cached_build_config := _cached_build_config w;
                      sys_path := sys_path w ++ [path];
                      calls := calls w
                                 ++ [fixup_namespace_packages_call path] |})
        as (added & Hrun & Hnd & Hin).
      simpl in Hrun, Hin.
      exists (path :: added). split; [|split].
      * rewrite Hrun. simpl. now rewrite <- !app_assoc.
      * constructor; [|exact Hnd]. intros Hp. apply Hin in Hp.
        destruct Hp as [_ Hp]. apply Hp. apply in_or_app. right. now left.
      * intros p. simpl. rewrite Hin, in_app_iff. simpl. split.
        -- intros [<- | [H1 H2]]; [auto|]. split; [now right|].
           intros H. apply H2. now left.
        -- intros [[<- | H1] H2]; [now left|].
           destruct (string_dec path p) as [<- | Hne]; [now left|].
           right. split; [exact H1|]. intros [H | [H | []]]; auto.
Qed.

(** When every path is already on [sys.path] the loop changes nothing. *)
Lemma extend_sys_path_noop (paths : list string) (w : World) :
  (forall p, In p paths -> In p (sys_path w)) ->
  extend_sys_path paths w = (Return tt, w).
Proof.
  induction paths as [|path rest IH]; intros Hall; [reflexivity|].
  cbn [extend_sys_path]. run_monad.
  assert (E : existsb (String.eqb path) (sys_path w) = true).
  { apply existsb_eqb_In. apply Hall. now left. }
  rewrite E. apply IH. intros p Hp. apply Hall. now right.
Qed.

(** X5: [setup] only ever appends to [sys.path]: what was there stays in
    place; the paths appended are exactly the [pythonpath] entries that
    were missing, each once; each appended path gets one namespace fix-up,
    in the same order, before the one activation call; and the cache is not
    written. *)
Theorem setup_extends_sys_path (self : BuildConfigInitializer) (w : World) :
  exists added,
    sys_path (snd (setup self w)) = sys_path w ++ added
    /\ NoDup added
    /\ (forall p, In p added <->
          In p (pythonpath (_bootstrap_options self))
          /\ ~ In p (sys_path w))
    /\ calls (snd (setup self w))
       = calls w ++ map fixup_namespace_packages_call added
           ++ [load_backends_and_plugins_call
                 (plugins (_bootstrap_options self))
                 (backend_packages (_bootstrap_options self))]
    /\ _cached_build_config (snd (setup self w)) = _cached_build_config w.
Proof.
  destruct (extend_sys_path_spec (pythonpath (_bootstrap_options self)) w)
    as (added & Hrun & Hnd & Hin).
  exists added. unfold setup. run_monad. rewrite Hrun. simpl.
  destruct (load_backends_and_plugins
              (plugins (_bootstrap_options self)) (_working_set self)
              (backend_packages (_bootstrap_options self))); simpl;
    rewrite <- ?app_assoc; auto.
Qed.

(** X6: a construction that follows a [reset] with the same bootstrapper
    finds its search paths in place: it leaves [sys.path] as the first
    construction left it, records no namespace fix-up, and records one
    resolution and one activation. *)
Theorem get_again_keeps_sys_path (b : OptionsBootstrapper)
    (o : OptionValueContainer) (w w1 w2 : World)
    (bc bc2 : BuildConfiguration) :
  _cached_build_config w = None ->
  get_bootstrap_options b = Return o ->
  get b w = (Return bc, w1) ->
  get b (snd (reset w1)) = (Return bc2, w2) ->
  sys_path w2 = sys_path w1
  /\ calls w2 = calls w1
       ++ [resolve_call b;
           load_backends_and_plugins_call (plugins o) (backend_packages o)].
Proof.
  intros Hc Ho Hget1 Hget2.
  assert (Hpresent : forall p, In p (pythonpath o) -> In p (sys_path w1)).
  { rewrite (get_uncached b w Hc) in Hget1. unfold init in Hget1.
    run_monad. rewrite Ho in Hget1.
    destruct (resolve b) as [ws|e]; simpl in Hget1; [|discriminate].
    unfold setup in Hget1. run_monad.
    destruct (extend_sys_path_spec (pythonpath o)
                {| _cached_build_config := _cached_build_config w;
                   sys_path := sys_path w;
                   calls := calls w ++ [resolve_call b] |})
      as (added & Hrun & _ & Hin).
    rewrite Hrun in Hget1. simpl in Hget1.
    destruct (load_backends_and_plugins (plugins o) ws (backend_packages o));
      simpl in Hget1; [|discriminate].
    inversion Hget1. subst. simpl. intros p Hp.
    destruct (in_dec string_dec p (sys_path w)) as [Hold | Hnew].
    - apply in_or_app. now left.
    - apply in_or_app. right. apply Hin. simpl. auto. }
  rewrite (get_uncached b (snd (reset w1)) eq_refl) in Hget2.
  unfold init in Hget2. run_monad. rewrite Ho in Hget2.
  destruct (resolve b) as [ws|e]; simpl in Hget2; [|discriminate].
  unfold setup in Hget2. run_monad.
  rewrite extend_sys_path_noop in Hget2 by (simpl; exact Hpresent).
  simpl in Hget2.
  destruct (load_backends_and_plugins (plugins o) ws (backend_packages o));
    simpl in Hget2; [|discriminate].
  inversion Hget2. subst. simpl. rewrite <- app_assoc. auto.
Qed.
End SearchPath.

Lemma get_again_keeps_sys_path_witness :
  sys_path (snd (get (C := Doubles.collaborators) DoublesRun.good
                   (snd (reset DoublesRun.warmed))))
  = sys_path DoublesRun.warmed.
Proof.
  apply (proj1 (get_again_keeps_sys_path (C := Doubles.collaborators)
                  DoublesRun.good
                  (Doubles.bootstrap_options_of DoublesRun.good)
                  Doubles.fresh DoublesRun.warmed
                  (snd (get (C := Doubles.collaborators) DoublesRun.good
                          (snd (reset DoublesRun.warmed))))
                  ["p1"; "pants.backend.python"]%string
                  ["p1"; "pants.backend.python"]%string
                  eq_refl eq_refl eq_refl eq_refl)).
Defined.

(** ** What the assembler and the recovery flow return and raise *)

Section AssemblerOutcomes.
Context `{C : Collaborators}.
Local Open Scope init_scope.

(** X7: options that [create] returns have passed every check: the
    declared version equals the running one, they are what the full parse
    gave for the scopes of every optionable of the build configuration, and
    the validator accepted their global scope; the calls recorded are the
    scope collection, the full parse and the validation, in that order, and
    neither the cache nor [sys.path] is touched. *)
Theorem create_returns_validated (b : OptionsBootstrapper)
    (bc : BuildConfiguration) (w w' : World) (options : Options) :
  create b bc w = (Return options, w') ->
  exists o,
    get_bootstrap_options b = Return o
    /\ pants_version o = running_pants_version
    /\ get_full_options b
         (flat_map known_scope_infos (all_optionables bc)) = Return options
    /\ validate_instance (for_global_scope options) = Return tt
    /\ w' = {| _cached_build_config := _cached_build_config w;
               sys_path := sys_path w;
               calls := calls w
                          ++ [known_scope_infos_call bc;
                              get_full_options_call b;
                              validate_instance_call options] |}.
Proof.
  unfold create. run_monad. intros H.
  destruct (get_bootstrap_options b) as [o|e]; [|discriminate].
  exists o. split; [reflexivity|].
  destruct (pants_version o =? running_pants_version)%string eqn:Ev;
    simpl in H; [|discriminate].
  apply String.eqb_eq in Ev. split; [exact Ev|].
  destruct (get_full_options b _) as [options'|e] eqn:Hp; [|discriminate].
  simpl in H.
  destruct (validate_instance (for_global_scope options')) as [[]|e] eqn:Hv;
    simpl in H; [|discriminate].
  inversion H. subst. rewrite <- !app_assoc. simpl.
  split; [reflexivity|]. split; [exact Hv | reflexivity].
Qed.

(** X8: [create] passes on, unchanged, the error of each call it makes
    once the calls before it have returned: an error in reading the
    bootstrap options, before anything is recorded; an error of the full
    parse, after the scope collection and the parse are recorded; and an
    error of the validator, after the validation is recorded too, the
    parsed options then not being returned.  The cache and [sys.path] are
    as before in each case. *)
Theorem create_propagates_errors (b : OptionsBootstrapper)
    (bc : BuildConfiguration) (w : World) (e : exn) :
  (get_bootstrap_options b = Raise e -> create b bc w = (Raise e, w))
  /\ (forall o,
        get_bootstrap_options b = Return o ->
        pants_version o = running_pants_version ->
        get_full_options b
          (flat_map known_scope_infos (all_optionables bc)) = Raise e ->
        create b bc w =
          (Raise e,
           {| _cached_build_config := _cached_build_config w;
              sys_path := sys_path w;
              calls := calls w ++ [known_scope_infos_call bc;
                                   get_full_options_call b] |}))
  /\ (forall o options,
        get_bootstrap_options b = Return o ->
        pants_version o = running_pants_version ->
        get_full_options b
          (flat_map known_scope_infos (all_optionables bc))
          = Return options ->
        validate_instance (for_global_scope options) = Raise e ->
        create b bc w =
          (Raise e,
           {| _cached_build_config := _cached_build_config w;
              sys_path := sys_path w;
              calls := calls w ++ [known_scope_infos_call bc;
                                   get_full_options_call b;
                                   validate_instance_call options] |})).
Proof.
  split; [|split].
  - intros H. unfold create. run_monad. now rewrite H.
  - intros o Ho Hv Hp. unfold create. run_monad. rewrite Ho, Hv.
    rewrite String.eqb_refl. simpl. rewrite Hp. simpl.
    now rewrite <- app_assoc.
  - intros o options Ho Hv Hp Hval. unfold create. run_monad.
    rewrite Ho, Hv, String.eqb_refl. simpl. rewrite Hp. simpl.
    rewrite Hval. simpl. now rewrite <- !app_assoc.
Qed.

(** X9: what [handle_unknown_flags] gives back when it does not raise:
    either the block's own value, the block having returned, or nothing,
    and then only when [raise_] is false, the block raised
    [UnknownFlagsError], and the last call recorded is the diagnostic for
    that very error.  Under [raise_ = true] an error is never
    suppressed. *)
Theorem handle_unknown_flags_returns {A} (b : OptionsBootstrapper)
    (raise_ : bool) (body : M A) (w w' : World) (r : option A) :
  handle_unknown_flags b raise_ body w = (Return r, w') ->
  match r with
  | Some a => body w = (Return a, w')
  | None =>
      raise_ = false
      /\ exists flags arg_scope w2 options earlier,
           body w = (Raise (UnknownFlagsError flags arg_scope), w2)
           /\ calls w' = earlier
                ++ [handle_unknown_flags_call options
                      (UnknownFlagsError flags arg_scope)]
  end.
Proof.
  unfold handle_unknown_flags. intros H.
  destruct (body w) as [[a|e] w2] eqn:Hbody.
  - inversion H. now subst.
  - destruct e; try discriminate.
    unfold bind at 1 in H.
    destruct (get b w2) as [[bc|e] w3]; [|discriminate].
    unfold bind at 1 in H.
    destruct (create _ bc w3) as [[options|e] w4]; [|discriminate].
    run_monad. destruct raise_; [discriminate|].
    inversion H. subst. simpl. split; [reflexivity|].
    now exists flags, arg_scope, w2, options, (calls w4).
Qed.

(** X10: [create_with_build_config] returns a pair only when [get]
    returned its first component and [create], on the caller's own
    bootstrapper, returned its second: the options parsed from the
    placeholder argument during recovery are never handed to the caller. *)
Theorem create_with_build_config_returns_only (b : OptionsBootstrapper)
    (raise_ : bool) (w w2 : World) (bc : BuildConfiguration)
    (options : Options) :
  create_with_build_config b raise_ w = (Return (bc, options), w2) ->
  exists w1,
    get b w = (Return bc, w1) /\ create b bc w1 = (Return options, w2).
Proof.
  unfold create_with_build_config, handle_unknown_flags.
  unfold bind at 1. intros H.
  destruct (get b w) as [[bc'|e] w1]; [|discriminate].
  unfold bind at 1 in H.
  destruct (create b bc' w1) as [[options'|e] w1'] eqn:Hcreate.
  - run_monad. inversion H. subst. now exists w1.
  - destruct e; try discriminate.
    unfold bind at 1 in H.
    destruct (get b w1') as [[bc3|e] w3]; [|discriminate].
    unfold bind at 1 in H.
    destruct (create _ bc3 w3) as [[options3|e] w4]; [|discriminate].
    run_monad. destruct raise_; discriminate.
Qed.

(** X11: when the second [create] of the recovery flow itself raises,
    that error is what [create_with_build_config] raises, for either value
    of [raise_]: the original [UnknownFlagsError] is not raised and no
    diagnostic is recorded. *)
Theorem create_with_build_config_recovery_raises (b : OptionsBootstrapper)
    (raise_ : bool) (w w1 w2 w3 : World) (bc : BuildConfiguration)
    (flags : list string) (arg_scope : string) (e : exn) :
  get b w = (Return bc, w1) ->
  create b bc w1 = (Raise (UnknownFlagsError flags arg_scope), w2) ->
  create (replace_args b ["dummy_first_arg"%string]) bc w2 = (Raise e, w3) ->
  create_with_build_config b raise_ w = (Raise e, w3).
Proof.
  intros Hget Hcreate Hclean.
  assert (Hc2 : _cached_build_config w2 = Some bc).
  { pose proof (create_cache b bc w1) as Hfr. rewrite Hcreate in Hfr.
    simpl in Hfr. rewrite Hfr. exact (get_returns_cached b bc w w1 Hget). }
  unfold create_with_build_config, handle_unknown_flags.
  unfold bind at 1. rewrite Hget.
  unfold bind at 1. rewrite Hcreate.
  unfold bind at 1. rewrite (get_cached b bc w2 Hc2).
  unfold bind at 1. now rewrite Hclean.
Qed.
End AssemblerOutcomes.

Lemma create_returns_validated_witness :
  exists o,
    get_bootstrap_options (Collaborators := Doubles.collaborators)
      DoublesRun.good = Return o
    /\ pants_version o = "2.0.0"%string.
Proof.
  destruct (create_returns_validated (C := Doubles.collaborators)
              DoublesRun.good ["p1"; "pants.backend.python"]%string
              DoublesRun.warmed
              (snd (create (C := Doubles.collaborators) DoublesRun.good
                      ["p1"; "pants.backend.python"]%string
                      DoublesRun.warmed))
              ["./pants"; "list"]%string eq_refl)
    as (o & Ho & Hv & _).
  exists o. now split.
Defined.

Lemma create_propagates_errors_witness :
  fst (create (C := Doubles.collaborators) DoublesRun.mistyped
         ["p1"; "pants.backend.python"]%string DoublesRun.warmed)
  = Raise (UnknownFlagsError ["--bogus"%string] "")
  /\ fst (create (C := DoublesInvalid.collaborators) DoublesRun.good
            ["p1"; "pants.backend.python"]%string DoublesInvalid.fresh)
     = Raise (CollaboratorError "invalid global option").
Proof.
  split.
  - rewrite (proj1 (proj2 (create_propagates_errors
               (C := Doubles.collaborators) DoublesRun.mistyped
               ["p1"; "pants.backend.python"]%string DoublesRun.warmed
               (UnknownFlagsError ["--bogus"%string] "")))
               (Doubles.bootstrap_options_of DoublesRun.mistyped)
               eq_refl eq_refl eq_refl).
    reflexivity.
  - rewrite (proj2 (proj2 (create_propagates_errors
               (C := DoublesInvalid.collaborators) DoublesRun.good
               ["p1"; "pants.backend.python"]%string DoublesInvalid.fresh
               (CollaboratorError "invalid global option")))
               (Doubles.bootstrap_options_of DoublesRun.good)
               ["./pants"; "list"]%string
               eq_refl eq_refl eq_refl eq_refl).
    reflexivity.
Defined.

Lemma handle_unknown_flags_returns_witness :
  create (C := Doubles.collaborators) DoublesRun.good
    ["p1"; "pants.backend.python"]%string DoublesRun.warmed
  = (Return ["./pants"; "list"]%string,
     snd (create (C := Doubles.collaborators) DoublesRun.good
            ["p1"; "pants.backend.python"]%string DoublesRun.warmed)).
Proof.
  apply (handle_unknown_flags_returns (C := Doubles.collaborators)
           DoublesRun.good true
           (create (C := Doubles.collaborators) DoublesRun.good
              ["p1"; "pants.backend.python"]%string)
           DoublesRun.warmed _ (Some ["./pants"; "list"]%string) eq_refl).
Defined.

Lemma create_with_build_config_returns_only_witness :
  exists w1,
    get (C := Doubles.collaborators) DoublesRun.good Doubles.fresh
      = (Return ["p1"; "pants.backend.python"]%string, w1)
    /\ fst (create (C := Doubles.collaborators) DoublesRun.good
              ["p1"; "pants.backend.python"]%string w1)
       = Return ["./pants"; "list"]%string.
Proof.
  destruct (create_with_build_config_returns_only
              (C := Doubles.collaborators) DoublesRun.good false
              Doubles.fresh
              (snd (create_with_build_config (C := Doubles.collaborators)
                      DoublesRun.good false Doubles.fresh))
              ["p1"; "pants.backend.python"]%string
              ["./pants"; "list"]%string eq_refl) as (w1 & Hg & Hc).
  exists w1. split; [exact Hg|]. now rewrite Hc.
Defined.

Lemma create_with_build_config_recovery_raises_witness :
  fst (create_with_build_config (C := DoublesInvalid.collaborators)
         DoublesRun.mistyped true DoublesInvalid.fresh)
  = Raise (CollaboratorError "invalid global option").
Proof.
  pose (bc := ["p1"; "pants.backend.python"]%string).
  pose (w1 := snd (get (C := DoublesInvalid.collaborators)
                     DoublesRun.mistyped DoublesInvalid.fresh)).
  pose (w2 := snd (create (C := DoublesInvalid.collaborators)
                     DoublesRun.mistyped bc w1)).
  pose (w3 := snd (create (C := DoublesInvalid.collaborators)
                     (replace_args DoublesRun.mistyped
                        ["dummy_first_arg"%string]) bc w2)).
  rewrite (create_with_build_config_recovery_raises
             (C := DoublesInvalid.collaborators) DoublesRun.mistyped true
             DoublesInvalid.fresh w1 w2 w3 bc ["--bogus"%string] ""
             (CollaboratorError "invalid global option")
             eq_refl eq_refl eq_refl).
  reflexivity.
Defined.

(** ** Which entries the invalidation globs keep *)

Section PathFacts.
Local Open Scope string_scope.

Lemma commonprefix_app (l rest : list string) :
  os_path.commonprefix l (l ++ rest) = l.
Proof.
  induction l as [|a l IH]; simpl.
  - now destruct rest.
  - now rewrite String.eqb_refl, IH.
Qed.

Lemma commonprefix_length_le (l1 l2 : list string) :
  (List.length (os_path.commonprefix l1 l2) <= List.length l1)%nat.
Proof.
  revert l2. induction l1 as [|a l1 IH]; intros [|b l2]; simpl; try lia.
  destruct (a =? b); simpl; [|lia]. specialize (IH l2). lia.
Qed.

Lemma commonprefix_full (l1 l2 : list string) :
  List.length (os_path.commonprefix l1 l2) = List.length l1 ->
  exists rest, l2 = (l1 ++ rest)%list.
Proof.
  revert l2. induction l1 as [|a l1 IH]; intros l2 H.
  - now exists l2.
  - destruct l2 as [|b l2]; [discriminate|]. simpl in H.
    destruct (a =? b) eqn:E; [|discriminate].
    apply String.eqb_eq in E. subst b. simpl in H.
    destruct (IH l2) as [rest Hrest]; [lia|]. exists rest. simpl. congruence.
Qed.

Lemma relpath_components (cwd path start : string) :
  path <> "" ->
  os_path.relpath cwd path start =
    match (repeat os_path.pardir
             (List.length (path_components cwd start)
              - List.length (os_path.commonprefix
                               (path_components cwd start)
                               (path_components cwd path)))
           ++ skipn (List.length (os_path.commonprefix
                                    (path_components cwd start)
                                    (path_components cwd path)))
                (path_components cwd path))%list with
    | [] => Return os_path.curdir
    | a :: p => Return (os_path.join a p)
    end.
Proof.
  intros Hne. unfold os_path.relpath. apply String.eqb_neq in Hne.
  now rewrite Hne.
Qed.

(** A component never holds the separator at either end. *)
Lemma split_no_sep (s : string) (c : ascii) (x : string) :
  In x (Str.split s c) ->
  Str.startswith x (String c "") = false /\ Str.endswith_char x c = false.
Proof.
  revert x. induction s as [|a s IH]; intros x Hin; simpl in Hin.
  - destruct Hin as [<- | []]. now split.
  - destruct (Ascii.eqb a c) eqn:E.
    + destruct Hin as [<- | Hin]; [now split | now apply IH].
    + destruct (Str.split s c) as [|h t] eqn:Hs.
      * destruct Hin as [<- | []]. unfold Str.startswith. simpl.
        rewrite E. split; [|reflexivity].
        destruct (Ascii.ascii_dec c a) as [-> | _]; [|reflexivity].
        now rewrite Ascii.eqb_refl in E.
      * destruct Hin as [<- | Hin]; [|apply IH; now right].
        destruct (IH h (or_introl eq_refl)) as [_ Hend].
        unfold Str.startswith. simpl. split.
        -- destruct (Ascii.ascii_dec c a) as [-> | _]; [|reflexivity].
           now rewrite Ascii.eqb_refl in E.
        -- destruct h; [exact E | exact Hend].
Qed.

Lemma path_components_good (cwd path x : string) :
  In x (path_components cwd path) ->
  x <> "" /\ Str.startswith x "/" = false
  /\ Str.endswith_char x os_path.sep = false.
Proof.
  unfold path_components. rewrite filter_In. intros [Hin Hne].
  split.
  - intros ->. discriminate.
  - exact (split_no_sep _ _ _ Hin).
Qed.

Lemma prefix_app (q a x : string) :
  String.prefix q a = true -> String.prefix q (a ++ x) = true.
Proof.
  revert a. induction q as [|c q IH]; intros a H;
    [now destruct (a ++ x)|].
  destruct a as [|d a]; [discriminate|]. simpl in *.
  destruct (Ascii.ascii_dec c d); [now apply IH | discriminate].
Qed.

Lemma join_keeps_prefix (p : list string) (a q : string) :
  Forall (fun b => Str.startswith b "/" = false) p ->
  Str.startswith a q = true ->
  Str.startswith (os_path.join a p) q = true.
Proof.
  unfold os_path.join. revert a.
  induction p as [|b p IH]; intros a Hall Ha; [exact Ha|].
  inversion Hall as [|? ? Hb Hp]; subst. simpl. apply IH; [exact Hp|].
  unfold os_path.join2. rewrite Hb. unfold Str.startswith in *.
  destruct ((a =? "") || Str.endswith_char a os_path.sep);
    now apply prefix_app.
Qed.

Lemma append_assoc (a b c : string) : (a ++ b) ++ c = a ++ (b ++ c).
Proof.
  induction a as [|x a IH]; simpl; [reflexivity | now rewrite IH].
Qed.

Lemma endswith_char_app (a b : string) (c : ascii) :
  b <> "" -> Str.endswith_char (a ++ b) c = Str.endswith_char b c.
Proof.
  intros Hb. induction a as [|x a IH]; [reflexivity|].
  simpl. destruct (a ++ b) as [|y r] eqn:E.
  - destruct a; simpl in E; [contradiction | discriminate].
  - exact IH.
Qed.

(** Joining components puts one separator between neighbours. *)
Lemma join_concat (p : list string) (a : string) :
  a <> "" ->
  Str.endswith_char a os_path.sep = false ->
  Forall (fun b => b <> "" /\ Str.startswith b "/" = false
                   /\ Str.endswith_char b os_path.sep = false) p ->
  os_path.join a p = String.concat "/" (a :: p).
Proof.
  unfold os_path.join. revert a.
  induction p as [|b p IH]; intros a Ha Hend Hall; [reflexivity|].
  inversion Hall as [|? ? (Hb & Hbs & Hbe) Hp]; subst.
  cbn [fold_left]. unfold os_path.join2 at 2. rewrite Hbs, Hend.
  apply String.eqb_neq in Ha. rewrite Ha. simpl orb. cbv iota.
  rewrite IH.
  - destruct p as [|d p]; [reflexivity|].
    cbn [String.concat]. now rewrite !append_assoc.
  - destruct a; discriminate.
  - rewrite endswith_char_app, endswith_char_app; auto; discriminate.
  - exact Hp.
Qed.

Lemma concat_head (c : string) (rest : list string) :
  exists t, String.concat "/" (c :: rest) = c ++ t.
Proof.
  destruct rest as [|d rest].
  - exists "". simpl. induction c; simpl; congruence.
  - eexists. reflexivity.
Qed.

Lemma kept_head (c t : string) :
  c <> "" -> c <> "." -> Str.startswith c ".." = false ->
  outside_buildroot (c ++ t) = false.
Proof.
  intros Hne Hdot Hpre. unfold outside_buildroot, Str.startswith in *.
  apply orb_false_intro.
  - apply String.eqb_neq. intros H.
    destruct c as [|x [|y c]]; [contradiction | |]; cbn [append] in H.
    + inversion H. subst. now apply Hdot.
    + discriminate.
  - destruct c as [|x [|y c]]; [contradiction | |];
      cbn [append String.prefix] in *.
    + destruct (Ascii.ascii_dec "." x) as [<- | Hx]; [|reflexivity].
      now contradiction Hdot.
    + destruct (Ascii.ascii_dec "." x) as [<- | Hx]; [|reflexivity].
      destruct (Ascii.ascii_dec "." y) as [<- | Hy]; [|reflexivity].
      destruct c; discriminate.
Qed.
End PathFacts.

Section KeptAndDropped.
Variables cwd buildroot : string.

Lemma dropped_not_contributed (glob r : string) :
  os_path.relpath cwd glob buildroot = Return r ->
  outside_buildroot r = true ->
  forall x, ~ contributed cwd buildroot glob x.
Proof.
  intros Hrel Hout x (r' & Hrel' & Hout' & _). congruence.
Qed.

Lemma compute_pantsd_invalidation_globs_sys_path_dropped
    (glob r : string) (pre post : list string) (o : OptionValueContainer) :
  os_path.relpath cwd glob buildroot = Return r ->
  outside_buildroot r = true ->
  compute_pantsd_invalidation_globs cwd (pre ++ glob :: post) buildroot o
  = compute_pantsd_invalidation_globs cwd (pre ++ post) buildroot o.
Proof.
  intros Hrel Hout.
  apply (compute_pantsd_invalidation_globs_dropped cwd buildroot _ _ o o
           pre (post ++ pythonpath o ++ pants_config_files o) glob r
           Hrel Hout); simpl; now rewrite <- ?app_assoc.
Qed.

Lemma relpath_same_components (glob : string) :
  glob <> ""%string ->
  path_components cwd glob = path_components cwd buildroot ->
  os_path.relpath cwd glob buildroot = Return "."%string.
Proof.
  intros Hne Hsame. rewrite (relpath_components cwd glob buildroot Hne).
  rewrite Hsame.
  pose proof (commonprefix_app (path_components cwd buildroot) []) as Hcp.
  rewrite app_nil_r in Hcp. rewrite Hcp, Nat.sub_diag, skipn_all.
  reflexivity.
Qed.

Lemma relpath_not_below (glob : string) :
  glob <> ""%string ->
  (forall rest,
     path_components cwd glob <> path_components cwd buildroot ++ rest) ->
  exists r, os_path.relpath cwd glob buildroot = Return r
            /\ Str.startswith r ".." = true.
Proof.
  intros Hne Hnot. rewrite (relpath_components cwd glob buildroot Hne).
  set (S := path_components cwd buildroot).
  set (P := path_components cwd glob).
  pose proof (commonprefix_length_le S P) as Hle.
  destruct (Nat.eq_dec (List.length (os_path.commonprefix S P))
              (List.length S)) as [Hfull | Hshort].
  { destruct (commonprefix_full S P Hfull) as [rest Hrest].
    now destruct (Hnot rest). }
  destruct (List.length S - List.length (os_path.commonprefix S P))%nat
    as [|k] eqn:Hk; [lia|].
  cbn [repeat app]. eexists. split; [reflexivity|].
  apply join_keeps_prefix; [|reflexivity].
  apply Forall_app. split.
  - clear. induction k; constructor; [reflexivity | assumption].
  - apply Forall_forall. intros x Hx.
    assert (Hin : In x P).
    { rewrite <- (firstn_skipn
                    (List.length (os_path.commonprefix S P)) P).
      apply in_or_app. now right. }
    now destruct (path_components_good cwd glob x Hin) as (_ & Hs & _).
Qed.

Lemma relpath_below (glob c : string) (rest : list string) :
  glob <> ""%string ->
  path_components cwd glob = path_components cwd buildroot ++ c :: rest ->
  os_path.relpath cwd glob buildroot
  = Return (String.concat "/" (c :: rest)).
Proof.
  intros Hne Hbelow. rewrite (relpath_components cwd glob buildroot Hne).
  assert (Hgood : forall x, In x (c :: rest) ->
            x <> ""%string /\ Str.startswith x "/" = false
            /\ Str.endswith_char x os_path.sep = false).
  { intros x Hx. apply (path_components_good cwd glob).
    rewrite Hbelow. apply in_or_app. now right. }
  rewrite Hbelow, commonprefix_app, Nat.sub_diag.
  rewrite skipn_app, skipn_all, Nat.sub_diag. cbn [repeat app skipn].
  f_equal. apply join_concat.
  - apply (Hgood c). now left.
  - apply (Hgood c). now left.
  - apply Forall_forall. intros x Hx. apply Hgood. now right.
Qed.
End KeptAndDropped.

(** X12: an entry with the build root's own components, the build root
    itself or another spelling of it such as one with a trailing separator,
    relativizes to "." and contributes no invalidation glob: the result is
    the same with the entry on [sys.path] and without it. *)
Theorem buildroot_entry_dropped (cwd buildroot glob : string)
    (pre post : list string) (o : OptionValueContainer) :
  glob <> ""%string ->
  path_components cwd glob = path_components cwd buildroot ->
  os_path.relpath cwd glob buildroot = Return "."%string
  /\ (forall x, ~ contributed cwd buildroot glob x)
  /\ compute_pantsd_invalidation_globs cwd (pre ++ glob :: post) buildroot o
     = compute_pantsd_invalidation_globs cwd (pre ++ post) buildroot o.
Proof.
  intros Hne Hsame.
  pose proof (relpath_same_components cwd buildroot glob Hne Hsame) as Hrel.
  split; [exact Hrel|]. split.
  - now apply (dropped_not_contributed cwd buildroot glob "." Hrel).
  - now apply (compute_pantsd_invalidation_globs_sys_path_dropped
                 cwd buildroot glob "." pre post o Hrel).
Qed.

Lemma buildroot_entry_dropped_witness :
  compute_pantsd_invalidation_globs "/home" ["/r/src"; "/r/"; "/r/lib"]%string
    "/r" empty_options
  = compute_pantsd_invalidation_globs "/home" ["/r/src"; "/r/lib"]%string
      "/r" empty_options.
Proof.
  apply (proj2 (proj2 (buildroot_entry_dropped "/home" "/r" "/r/"
                         ["/r/src"%string] ["/r/lib"%string] empty_options
                         ltac:(discriminate) eq_refl))).
Defined.

(** X13: an entry that does not lie at or below the build root, its
    components not beginning with all of the build root's, relativizes to
    a path that starts with ".." and contributes no invalidation glob. *)
Theorem outside_entry_dropped (cwd buildroot glob : string)
    (pre post : list string) (o : OptionValueContainer) :
  glob <> ""%string ->
  (forall rest,
     path_components cwd glob <> path_components cwd buildroot ++ rest) ->
  (exists r, os_path.relpath cwd glob buildroot = Return r
             /\ Str.startswith r ".." = true)
  /\ (forall x, ~ contributed cwd buildroot glob x)
  /\ compute_pantsd_invalidation_globs cwd (pre ++ glob :: post) buildroot o
     = compute_pantsd_invalidation_globs cwd (pre ++ post) buildroot o.
Proof.
  intros Hne Hnot.
  destruct (relpath_not_below cwd buildroot glob Hne Hnot) as (r & Hrel & Hp).
  assert (Hout : outside_buildroot r = true).
  { unfold outside_buildroot. rewrite Hp. apply orb_true_r. }
  split; [now exists r|]. split.
  - now apply (dropped_not_contributed cwd buildroot glob r Hrel).
  - now apply (compute_pantsd_invalidation_globs_sys_path_dropped
                 cwd buildroot glob r pre post o Hrel).
Qed.

Lemma outside_entry_dropped_witness :
  compute_pantsd_invalidation_globs "/home"
    ["/r/src"; "/usr/lib/python3"; "/r/lib"]%string "/r" empty_options
  = compute_pantsd_invalidation_globs "/home" ["/r/src"; "/r/lib"]%string
      "/r" empty_options.
Proof.
  apply (proj2 (proj2 (outside_entry_dropped "/home" "/r" "/usr/lib/python3"
                         ["/r/src"%string] ["/r/lib"%string] empty_options
                         ltac:(discriminate)
                         ltac:(intros rest; discriminate)))).
Defined.

(** X14: an entry below the build root whose first component under it is
    not "." and does not begin with ".." relativizes to its remaining
    components joined by "/", and contributes exactly that path and that
    path followed by "/**"; both are in whatever the call returns. *)
Theorem inside_entry_contributes (cwd buildroot glob c : string)
    (rest : list string) :
  glob <> ""%string ->
  path_components cwd glob = path_components cwd buildroot ++ c :: rest ->
  c <> "."%string ->
  Str.startswith c ".." = false ->
  os_path.relpath cwd glob buildroot
    = Return (String.concat "/" (c :: rest))
  /\ (forall x,
        contributed cwd buildroot glob x <->
        x = String.concat "/" (c :: rest)
        \/ x = (String.concat "/" (c :: rest) ++ "/**")%string)
  /\ (forall sys_path0 o globs,
        In glob (sys_path0 ++ pythonpath o ++ pants_config_files o) ->
        compute_pantsd_invalidation_globs cwd sys_path0 buildroot o
          = Return globs ->
        In (String.concat "/" (c :: rest)) globs
        /\ In (String.concat "/" (c :: rest) ++ "/**")%string globs).
Proof.
  intros Hne Hbelow Hdot Hpre.
  pose proof (relpath_below cwd buildroot glob c rest Hne Hbelow) as Hrel.
  assert (Hkept : outside_buildroot (String.concat "/" (c :: rest)) = false).
  { destruct (concat_head c rest) as [t ->]. apply kept_head; auto.
    apply (path_components_good cwd glob). rewrite Hbelow.
    apply in_or_app. right. now left. }
  assert (Hcontrib : forall x,
            contributed cwd buildroot glob x <->
            x = String.concat "/" (c :: rest)
            \/ x = (String.concat "/" (c :: rest) ++ "/**")%string).
  { intros x. split.
    - intros (r & Hr & _ & Hx). rewrite Hrel in Hr. inversion Hr.
      now subst.
    - intros Hx. now exists (String.concat "/" (c :: rest)). }
  split; [exact Hrel|]. split; [exact Hcontrib|].
  intros sys_path0 o globs Hin Hrun.
  unfold compute_pantsd_invalidation_globs in Hrun.
  destruct (relativize_globs cwd buildroot _ OrderedSet.empty)
    as [s|e] eqn:Hs; [|discriminate].
  assert (Hg : globs = OrderedSet.update s
                         (fixed_globs ++ pantsd_invalidation_globs o))
    by congruence.
  rewrite Hg.
  split; apply (proj2 (update_In _ _ _)); left;
    apply (proj2 (relativize_globs_In cwd buildroot _ _ _ _ Hs)); right;
    exists glob; (split; [exact Hin|]); apply Hcontrib; auto.
Qed.

Lemma inside_entry_contributes_witness :
  os_path.relpath "/home" "/r/src//python/" "/r"
  = Return "src/python"%string.
Proof.
  apply (proj1 (inside_entry_contributes "/home" "/r" "/r/src//python/"
                  "src" ["python"%string]
                  ltac:(discriminate) eq_refl ltac:(discriminate) eq_refl)).
Defined.

Section RepeatedEntries.
Variables cwd buildroot : string.

Lemma update_present (xs : list string) (s : OrderedSet.t) :
  (forall x, In x xs -> In x s) -> OrderedSet.update s xs = s.
Proof.
  unfold OrderedSet.update. induction xs as [|x xs IH]; intros Hall;
    [reflexivity|].
  cbn [fold_left]. unfold OrderedSet.add at 2.
  assert (E : OrderedSet.contains s x = true).
  { apply contains_In. apply Hall. now left. }
  rewrite E. apply IH. intros y Hy. apply Hall. now right.
Qed.

(** A second mention of an entry changes nothing: what it would add is in
    the set since the first. *)
Lemma relativize_globs_repeated (a b c : list string) (g : string)
    (s : OrderedSet.t) :
  relativize_globs cwd buildroot (a ++ g :: b ++ g :: c) s
  = relativize_globs cwd buildroot (a ++ g :: b ++ c) s.
Proof.
  rewrite !relativize_globs_app.
  destruct (relativize_globs cwd buildroot a s) as [s1|e]; [|reflexivity].
  cbn [relativize_globs].
  destruct (os_path.relpath cwd g buildroot) as [r|e] eqn:Hrel;
    [|reflexivity].
  destruct (outside_buildroot r) eqn:Hout.
  - now apply relativize_globs_dropped with (r := r).
  - rewrite !relativize_globs_app.
    destruct (relativize_globs cwd buildroot b _) as [s3|e] eqn:Hb;
      [|reflexivity].
    cbn [relativize_globs]. rewrite Hrel, Hout.
    rewrite update_present; [reflexivity|].
    intros x Hx.
    apply (proj2 (relativize_globs_In cwd buildroot _ _ _ x Hb)). left.
    apply update_In. now right.
Qed.
End RepeatedEntries.

(** X15: an entry that was already met earlier, on [sys.path] or among
    the extra search paths, may be listed again in a later source without
    any effect on the result: the call with the repeated entry and the call
    without it end alike. *)
Theorem repeated_entry_harmless (cwd buildroot g : string)
    (sys_path0 extra config_files user pre post : list string)
    (o : OptionValueContainer) :
  (In g sys_path0 ->
     compute_pantsd_invalidation_globs cwd sys_path0 buildroot
       (with_glob_inputs (pre ++ g :: post) config_files user o)
     = compute_pantsd_invalidation_globs cwd sys_path0 buildroot
         (with_glob_inputs (pre ++ post) config_files user o))
  /\ (In g (sys_path0 ++ extra) ->
        compute_pantsd_invalidation_globs cwd sys_path0 buildroot
          (with_glob_inputs extra (pre ++ g :: post) user o)
        = compute_pantsd_invalidation_globs cwd sys_path0 buildroot
            (with_glob_inputs extra (pre ++ post) user o)).
Proof.
  assert (Hrep : forall a b c,
            relativize_globs cwd buildroot
              ((a ++ g :: b) ++ (pre ++ g :: post) ++ c) OrderedSet.empty
            = relativize_globs cwd buildroot
                ((a ++ g :: b) ++ (pre ++ post) ++ c) OrderedSet.empty).
  { intros a b c.
    replace ((a ++ g :: b) ++ (pre ++ g :: post) ++ c)
      with (a ++ g :: (b ++ pre) ++ g :: (post ++ c))
      by now rewrite <- !app_assoc.
    replace ((a ++ g :: b) ++ (pre ++ post) ++ c)
      with (a ++ g :: (b ++ pre) ++ (post ++ c))
      by now rewrite <- !app_assoc.
    apply relativize_globs_repeated. }
  split; intros Hin; apply in_split in Hin; destruct Hin as (a & b & Hab);
    unfold compute_pantsd_invalidation_globs;
    cbn [pythonpath pants_config_files pantsd_invalidation_globs
         with_glob_inputs].
  - now rewrite Hab, Hrep.
  - rewrite !(app_assoc sys_path0 extra), Hab.
    specialize (Hrep a b []). rewrite !app_nil_r in Hrep.
    now rewrite Hrep.
Qed.

Lemma repeated_entry_harmless_witness :
  compute_pantsd_invalidation_globs "/home" ["/r/src"%string] "/r"
    (with_glob_inputs ["/r/lib"%string] ["/r/pants.toml"; "/r/src"]%string
       [] empty_options)
  = compute_pantsd_invalidation_globs "/home" ["/r/src"%string] "/r"
      (with_glob_inputs ["/r/lib"%string] ["/r/pants.toml"%string]
         [] empty_options).
Proof.
  apply (proj2 (repeated_entry_harmless "/home" "/r" "/r/src"
                  ["/r/src"%string] ["/r/lib"%string] [] []
                  ["/r/pants.toml"%string] [] empty_options)).
  simpl. now left.
Defined.

(** ** The shape of the ignore list *)

Lemma ignore_entry_shape (buildroot dir e : string) :
  In e (ignore_entry buildroot dir) ->
  Str.startswith e "/" = true
  /\ (e = "/"%string \/ Str.endswith_char e os_path.sep = false).
Proof.
  unfold ignore_entry.
  destruct (fast_relpath_optional dir buildroot) as [rel|]; [|intros []].
  destruct (rel =? "")%string; [intros []|].
  intros [<- | []]. split.
  - unfold Str.startswith. cbn [append String.prefix].
    destruct (Ascii.ascii_dec "/" "/") as [_ | Hne]; [|now destruct Hne].
    now destruct (Str.rstrip rel os_path.sep).
  - destruct (rstrip_spec rel os_path.sep) as [Hend _].
    destruct (Str.rstrip rel os_path.sep) as [|x r] eqn:E; [now left|].
    right. rewrite endswith_char_app; [exact Hend | discriminate].
Qed.

(** X16: [compute_pants_ignore] keeps the user's entries, unchanged and
    in order, at the front; it adds at most three entries; every entry it
    adds begins with "/" (so never with the marker "!") and, unless it is
    "/" alone, does not end with a separator. *)
Theorem compute_pants_ignore_shape (buildroot : string)
    (go : OptionValueContainer) :
  exists added,
    compute_pants_ignore buildroot go = pants_ignore go ++ added
    /\ (List.length added <= 3)%nat
    /\ Forall (fun e => Str.startswith e "/" = true
                        /\ Str.startswith e "!" = false
                        /\ (e = "/"%string
                            \/ Str.endswith_char e os_path.sep = false))
         added.
Proof.
  exists (ignore_entry buildroot (pants_workdir go)
            ++ ignore_entry buildroot (pants_distdir go)
            ++ ignore_entry buildroot (pants_subprocessdir go)).
  split; [apply compute_pants_ignore_entries|]. split.
  - rewrite !length_app.
    assert (Hone : forall dir,
              (List.length (ignore_entry buildroot dir) <= 1)%nat).
    { intros dir. unfold ignore_entry.
      destruct (fast_relpath_optional dir buildroot) as [rel|]; [|simpl; lia].
      destruct (rel =? "")%string; simpl; lia. }
    pose proof (Hone (pants_workdir go)).
    pose proof (Hone (pants_distdir go)).
    pose proof (Hone (pants_subprocessdir go)). lia.
  - apply Forall_forall. intros e He.
    assert (Hshape : Str.startswith e "/" = true
                     /\ (e = "/"%string
                         \/ Str.endswith_char e os_path.sep = false)).
    { rewrite !in_app_iff in He.
      destruct He as [He | [He | He]];
        exact (ignore_entry_shape buildroot _ e He). }
    destruct Hshape as [Hs Hend]. split; [exact Hs|]. split; [|exact Hend].
    unfold Str.startswith in *. destruct e as [|x e]; [discriminate|].
    cbn [String.prefix] in *.
    destruct (Ascii.ascii_dec "/" x) as [<- | Hx]; [|discriminate].
    destruct (Ascii.ascii_dec "!" "/"); [discriminate | reflexivity].
Qed.

(** ** Outcomes of [get] and of the executor arguments *)

Section GetOutcomes.
Context `{C : Collaborators}.
Local Open Scope init_scope.

(** X17: a build configuration that [get] builds, nothing being cached,
    is what the activator returned for this bootstrapper's plugins, the
    working set its resolver gave, and its backend packages. *)
Theorem get_uncached_value (b : OptionsBootstrapper) (w w1 : World)
    (bc : BuildConfiguration) :
  _cached_build_config w = None ->
  get b w = (Return bc, w1) ->
  exists o ws,
    get_bootstrap_options b = Return o
    /\ resolve b = Return ws
    /\ load_backends_and_plugins (plugins o) ws (backend_packages o)
       = Return bc.
Proof.
  intros Hc. rewrite (get_uncached b w Hc). unfold init. run_monad.
  destruct (get_bootstrap_options b) as [o|e]; [|discriminate].
  destruct (resolve b) as [ws|e]; simpl; [|discriminate].
  unfold setup. run_monad.
  destruct (extend_sys_path_frame (pythonpath o)
              {| _cached_build_config := _cached_build_config w;
                 sys_path := sys_path w;
                 calls := calls w ++ [resolve_call b] |})
    as (w' & Hrun & _).
  rewrite Hrun. simpl.
  destruct (load_backends_and_plugins (plugins o) ws (backend_packages o))
    as [bc'|e] eqn:Hl; simpl; [|discriminate].
  intros H. inversion H. subst. now exists o, ws.
Qed.

(** X18: [get] raises only when nothing is cached, and whatever made it
    raise, the cache is still unset afterwards. *)
Theorem get_raises_uncached (b : OptionsBootstrapper) (w w1 : World)
    (e : exn) :
  get b w = (Raise e, w1) ->
  _cached_build_config w = None /\ _cached_build_config w1 = None.
Proof.
  intros H.
  destruct (_cached_build_config w) as [c|] eqn:Hc.
  { rewrite (get_cached b c w Hc) in H. discriminate. }
  split; [reflexivity|].
  rewrite (get_uncached b w Hc) in H. unfold init in H. run_monad.
  destruct (get_bootstrap_options b) as [o|e0].
  - destruct (resolve b) as [ws|e1]; simpl in H.
    + unfold setup in H. run_monad.
      destruct (extend_sys_path_frame (pythonpath o)
                  {| _cached_build_config := _cached_build_config w;
                     sys_path := sys_path w;
                     calls := calls w ++ [resolve_call b] |})
        as (w' & Hrun & Hcache & _).
      rewrite Hrun in H. simpl in H.
      destruct (load_backends_and_plugins (plugins o) ws
                  (backend_packages o)) as [bc|e2]; simpl in H;
        [discriminate|].
      inversion H. subst. simpl. now rewrite Hcache.
    + inversion H. subst. exact Hc.
  - inversion H. subst. exact Hc.
Qed.
End GetOutcomes.

Lemma get_uncached_value_witness :
  exists o ws,
    get_bootstrap_options (Collaborators := Doubles.collaborators)
      DoublesRun.good = Return o
    /\ resolve (Collaborators := Doubles.collaborators) DoublesRun.good
       = Return ws
    /\ load_backends_and_plugins (Collaborators := Doubles.collaborators)
         (plugins o) ws (backend_packages o)
       = Return ["p1"; "pants.backend.python"]%string.
Proof.
  apply (get_uncached_value (C := Doubles.collaborators) DoublesRun.good
           Doubles.fresh DoublesRun.warmed
           ["p1"; "pants.backend.python"]%string eq_refl eq_refl).
Defined.

Lemma get_raises_uncached_witness :
  _cached_build_config
    (snd (get (C := Doubles.collaborators) DoublesRun.conflicting
            Doubles.fresh)) = None.
Proof.
  apply (proj2 (get_raises_uncached (C := Doubles.collaborators)
                  DoublesRun.conflicting Doubles.fresh
                  (snd (get (C := Doubles.collaborators)
                          DoublesRun.conflicting Doubles.fresh))
                  (CollaboratorError "duplicate registration")
                  eq_refl)).
Defined.

(** X19: [compute_executor_arguments] returns exactly when the minimum is
    at least 2; the pair it returns has that minimum first, and second
    either the supplied maximum, which is then not 0 and is not compared
    with the minimum, or four times the minimum, which then exceeds it. *)
Theorem compute_executor_arguments_returns (o : OptionValueContainer) :
  ((exists pair, compute_executor_arguments o = Return pair)
   <-> 2 <= rule_threads_core o)
  /\ forall a b,
       compute_executor_arguments o = Return (a, b) ->
       a = rule_threads_core o
       /\ 2 <= a
       /\ ((rule_threads_max o = Some b /\ b <> 0)
           \/ (truthy (rule_threads_max o) = false
               /\ b = 4 * a /\ a < b)).
Proof.
  split.
  - split.
    + intros [pair H]. destruct (Z_lt_ge_dec (rule_threads_core o) 2) as [Hlt|];
        [|lia].
      rewrite (compute_executor_arguments_below_two o Hlt) in H.
      discriminate.
    + intros Hge. destruct (truthy (rule_threads_max o)) eqn:Ht.
      * destruct (rule_threads_max o) as [m|] eqn:Hm; [|discriminate].
        exists (rule_threads_core o, m).
        apply compute_executor_arguments_truthy_max; auto.
        simpl in Ht. intros ->. discriminate.
      * eexists. now apply compute_executor_arguments_falsy_max.
  - intros a b H.
    destruct (Z_lt_ge_dec (rule_threads_core o) 2) as [Hlt | Hge].
    { rewrite (compute_executor_arguments_below_two o Hlt) in H.
      discriminate. }
    assert (Hge' : 2 <= rule_threads_core o) by lia.
    destruct (truthy (rule_threads_max o)) eqn:Ht.
    + destruct (rule_threads_max o) as [m|] eqn:Hm; [|discriminate].
      assert (Hnz : m <> 0) by (simpl in Ht; intros ->; discriminate).
      rewrite (compute_executor_arguments_truthy_max o m Hge' Hm Hnz) in H.
      assert (Hp : (rule_threads_core o, m) = (a, b)) by congruence.
      pose proof (f_equal fst Hp) as Ha. pose proof (f_equal snd Hp) as Hb.
      cbn [fst snd] in Ha, Hb. subst a b. split; [reflexivity|].
      split; [lia|].
      left. now split.
    + rewrite (compute_executor_arguments_falsy_max o Hge' Ht) in H.
      assert (Hp : (rule_threads_core o, 4 * rule_threads_core o) = (a, b))
        by congruence.
      pose proof (f_equal fst Hp) as Ha. pose proof (f_equal snd Hp) as Hb.
      cbn [fst snd] in Ha, Hb. subst a. split; [reflexivity|].
      split; [lia|].
      right. split; [reflexivity|]. split; lia.
Qed.

Lemma compute_executor_arguments_returns_witness :
  4 = rule_threads_core (with_rule_threads 4 (Some 3) empty_options)
  /\ 2 <= 4.
Proof.
  pose proof (proj2 (compute_executor_arguments_returns
                       (with_rule_threads 4 (Some 3) empty_options))
                4 3 eq_refl) as H.
  exact (conj (proj1 H) (proj1 (proj2 H))).
Defined.
